(** * QueryCraft (text-to-sql): the cleaning, validation and orchestration core of [app.py]

    The development embeds the four functions of [app.py] that carry logic:
    [validate_sql], [clean_sql_query], [get_gemini_response] and the
    submit handler of [query_converter_page], together with the Python
    string primitives they call.

    Strings.  A Python [str] is modelled by [string]: a sequence of
    characters, each an [ascii] read as one code point in U+0000..U+00FF
    (Latin-1).  On that range [lower] and [is_space] below are Python's
    [str.lower] and the whitespace test of [str.strip]; [length] is [len]. *)

From Stdlib Require Import Strings.String Strings.Ascii Lists.List Bool.Bool.
From Stdlib Require Import Arith.PeanoNat NArith.NArith Numbers.DecimalString micromega.Lia.
Import ListNotations.

Local Open Scope string_scope.
Local Open Scope bool_scope.

(** ** Python string primitives *)

Module Py.

(** [str.isspace] on one code point below 256: TAB..CR, FS..US, SPACE,
    NEL (U+0085) and NBSP (U+00A0). *)
Definition is_space (c : ascii) : bool :=
  let n := N_of_ascii c in
  ((9 <=? n) && (n <=? 13) || (28 <=? n) && (n <=? 32) || (n =? 133) || (n =? 160))%N.

(** Lower-casing of one code point below 256: A..Z, and the Latin-1
    capitals U+00C0..U+00DE except the multiplication sign U+00D7, move up
    by 32; every other code point is its own lower case. *)
Definition lower_char (c : ascii) : ascii :=
  let n := N_of_ascii c in
  if ((65 <=? n) && (n <=? 90) || (192 <=? n) && (n <=? 214) || (216 <=? n) && (n <=? 222))%N
  then ascii_of_N (n + 32)
  else c.

(** [s.lower()] *)
Fixpoint lower (s : string) : string :=
  match s with
  | EmptyString => EmptyString
  | String c s' => String (lower_char c) (lower s')
  end.

(** [s.lstrip()] *)
Fixpoint lstrip (s : string) : string :=
  match s with
  | EmptyString => EmptyString
  | String c s' => if is_space c then lstrip s' else s
  end.

(** [s.rstrip()] *)
Fixpoint rstrip (s : string) : string :=
  match s with
  | EmptyString => EmptyString
  | String c s' =>
      match rstrip s' with
      | EmptyString => if is_space c then EmptyString else String c EmptyString
      | r => String c r
      end
  end.

(** [s.strip()] *)
Definition strip (s : string) : string := rstrip (lstrip s).

(** Truthiness of a string: [not s] holds of the empty string only. *)
Definition truthy (s : string) : bool :=
  match s with
  | EmptyString => false
  | String _ _ => true
  end.

(** [s.startswith(p)] *)
Fixpoint startswith (s p : string) {struct p} : bool :=
  match p, s with
  | EmptyString, _ => true
  | String _ _, EmptyString => false
  | String a p', String b s' => Ascii.eqb a b && startswith s' p'
  end.

(** [s[n:]] for [n >= 0] *)
Fixpoint slice_from (s : string) (n : nat) {struct n} : string :=
  match n, s with
  | O, _ => s
  | S _, EmptyString => EmptyString
  | S n', String _ s' => slice_from s' n'
  end.

(** [s[:n]] for [n >= 0] *)
Fixpoint slice_to (s : string) (n : nat) {struct n} : string :=
  match n, s with
  | O, _ => EmptyString
  | S _, EmptyString => EmptyString
  | S n', String c s' => String c (slice_to s' n')
  end.

(** [s[:-k]] for [k > 0]: everything but the last [k] characters, and the
    empty string when [s] is shorter than [k]. *)
Definition slice_drop_last (s : string) (k : nat) : string :=
  slice_to s (String.length s - k).

(** [s.endswith(p)] *)
Definition endswith (s p : string) : bool :=
  (String.length p <=? String.length s)%nat && String.eqb (slice_from s (String.length s - String.length p)) p.

(** [sub in s] *)
Fixpoint contains (sub s : string) : bool :=
  startswith s sub ||
  match s with
  | EmptyString => false
  | String _ s' => contains sub s'
  end.

(** [s.startswith((p1, ..., pn))] with a tuple of alternatives *)
Definition startswith_any (s : string) (ps : list string) : bool :=
  existsb (startswith s) ps.

(** [s * n] *)
Fixpoint repeat (s : string) (n : nat) : string :=
  match n with
  | O => EmptyString
  | S n' => s ++ repeat s n'
  end.

(** The line feed, [chr(10)] *)
Definition nl : string := String (ascii_of_nat 10) EmptyString.

(** [str(n)] for a non-negative integer *)
Definition str_of_nat (n : nat) : string :=
  NilZero.string_of_uint (Nat.to_uint n).

End Py.

(** ** Constants *)

Definition SENSITIVE_KEYWORDS : list string :=
  ["password"; "credit_card"; "ssn"; "social security"; "pin"].

Definition MAX_QUERY_LENGTH : nat := 2000.

(** ** [validate_sql] *)

Definition validate_sql (query : string) : bool * string :=
  if negb (Py.truthy query) then (false, "Empty query")
  else
    let query := Py.strip (Py.lower query) in
    if negb (Py.startswith_any query ["select"; "insert"; "update"; "delete"]) then
      (false, "Query must start with SELECT, INSERT, UPDATE, or DELETE")
    else if Py.contains ";" (Py.slice_drop_last query 1) then
      (false, "Multiple queries not allowed")
    else if existsb (fun keyword => Py.contains keyword query) ["drop"; "truncate"; "alter"] then
      (false, "Potentially dangerous operation detected")
    else (true, "").

(** ** [clean_sql_query] *)

Definition prefixes_to_remove : list string :=
  ["SQL Query:"; "SQL:"; "Query:"; "Answer:"].

(** The body of the [for prefix in prefixes_to_remove] loop. *)
Definition remove_prefix (sql_query prefix : string) : string :=
  if Py.startswith (Py.strip sql_query) prefix
  then Py.strip (Py.slice_from (Py.strip sql_query) (String.length prefix))
  else sql_query.

Definition clean_sql_query (sql_query : string) : string :=
  if negb (Py.truthy sql_query) then ""
  else
    let sql_query :=
      if Py.startswith sql_query "```sql" then Py.slice_from sql_query 6
      else if Py.startswith sql_query "```" then Py.slice_from sql_query 3
      else sql_query in
    let sql_query :=
      if Py.endswith sql_query "```" then Py.slice_drop_last sql_query 3
      else sql_query in
    let sql_query := fold_left remove_prefix prefixes_to_remove sql_query in
    Py.strip sql_query.

(** ** [get_gemini_response] *)

(** The text of the f-string before and after the interpolated question. *)
Definition prompt_head : string :=
  "
    You are an expert in converting English questions to SQL query!
    The SQL database has the following tables and columns:
    
    **Database Schema:**
    1. **employees** table: employee_id (PK), first_name, last_name, email, phone, hire_date, job_id (FK), salary, department_id (FK)
    2. **departments** table: department_id (PK), department_name, manager_id (FK), location_id (FK)
    3. **jobs** table: job_id (PK), job_title, min_salary, max_salary
    4. **locations** table: location_id (PK), street_address, postal_code, city, state_province, country_id
    5. **customers** table: customer_id (PK), first_name, last_name, email, phone, address, city, state, country
    6. **orders** table: order_id (PK), customer_id (FK), order_date, total_amount, status
    7. **products** table: product_id (PK), product_name, category, price, stock_quantity
    8. **order_items** table: order_item_id (PK), order_id (FK), product_id (FK), quantity, unit_price
    
    **Instructions:**
    - Convert the following English question to a proper SQL query
    - Use appropriate JOINs when querying multiple tables
    - Include proper WHERE clauses for filtering
    - Use ORDER BY and LIMIT when appropriate
    - Ensure the query is syntactically correct
    - Return ONLY the SQL query without explanations
    - Never include DROP, TRUNCATE, or other destructive operations
    
    **Question:** ".

Definition prompt_tail : string :=
  "
    
    **SQL Query:**
    ".

Definition build_prompt (input_text : string) : string :=
  prompt_head ++ input_text ++ prompt_tail.

(** Exceptions that [model.generate_content(prompt)] and the read of
    [response.text] can raise, as the [except] clauses tell them apart;
    the argument is [str(e)].  [OtherException] stands for every other
    subclass of [Exception]. *)
Inductive exception : Type :=
| ValueError (msg : string)
| InvalidArgument (msg : string)
| PermissionDenied (msg : string)
| ResourceExhausted (msg : string)
| OtherException (msg : string).

(** What one evaluation of [model.generate_content(prompt).text] gives. *)
Inductive outcome : Type :=
| Returned (text : string)
| Raised (e : exception).

(** An initialized model handle, as [genai.GenerativeModel(model_name)]
    builds it; Python's [None] is [None] of [option GenerativeModel]. *)
Record GenerativeModel : Type := { model_name : string }.

(** Programs that may call the Generation Client: either a value, or one
    call of [generate_content] on a handle with a prompt, continued on
    what the call gives. *)
Inductive io (A : Type) : Type :=
| Ret (a : A)
| Generate (model : GenerativeModel) (prompt : string) (k : outcome -> io A).

Arguments Ret {A} a.
Arguments Generate {A} model prompt k.

Fixpoint bind {A B : Type} (m : io A) (f : A -> io B) : io B :=
  match m with
  | Ret a => f a
  | Generate model prompt k => Generate model prompt (fun o => bind (k o) f)
  end.

Notation "x <- m ;; f" := (bind m (fun x => f))
  (at level 61, m at next level, right associativity).

(** A Generation Client answers each call on a handle and a prompt. *)
Definition client : Type := GenerativeModel -> string -> outcome.

(** Running a program against a client: the value computed and the
    prompts sent, in order. *)
Fixpoint run {A : Type} (c : client) (m : io A) : A * list string :=
  match m with
  | Ret a => (a, [])
  | Generate model prompt k =>
      let '(a, sent) := run c (k (c model prompt)) in (a, prompt :: sent)
  end.

(** The [except] clauses of [get_gemini_response], in their order. *)
Definition handle_exception (e : exception) : string :=
  match e with
  | ValueError msg =>
      if Py.contains "policy" (Py.lower msg) || Py.contains "safety" (Py.lower msg)
      then "Error: Prompt blocked for safety reasons"
      else "Error: " ++ msg
  | InvalidArgument msg => "Error: Invalid prompt - " ++ msg
  | PermissionDenied msg => "Error: API key rejected - " ++ msg
  | ResourceExhausted msg => "Error: API quota exceeded - " ++ msg
  | OtherException msg => "Error generating SQL query: " ++ msg
  end.

Definition get_gemini_response (input_text : string) (model : option GenerativeModel)
  : io string :=
  match model with
  | None => Ret "Error: Gemini AI model not initialized"
  | Some model =>
      if existsb (fun keyword => Py.contains keyword (Py.lower input_text)) SENSITIVE_KEYWORDS
      then Ret "Error: Query contains potentially sensitive keywords"
      else if (MAX_QUERY_LENGTH <? String.length input_text)%nat
      then Ret ("Error: Query too long (max " ++ Py.str_of_nat MAX_QUERY_LENGTH ++ " characters)")
      else
        let prompt := build_prompt input_text in
        Generate model prompt (fun response =>
          match response with
          | Returned text =>
              let cleaned_query := clean_sql_query text in
              let '(is_valid, validation_msg) := validate_sql cleaned_query in
              if negb is_valid then Ret ("Validation Error: " ++ validation_msg)
              else Ret cleaned_query
          | Raised e => Ret (handle_exception e)
          end)
  end.

(** ** The submit handler of [query_converter_page] *)

Record HistoryEntry : Type := {
  question : string;
  sql_query : string;
  timestamp : string
}.

(** The two keys of [st.session_state] the handler reads and writes. *)
Record session_state : Type := {
  model : option GenerativeModel;
  query_history : list HistoryEntry
}.

(** One run of the page script on the widget values [input_text],
    [submit] and [save_history]; [now] is the text of
    [datetime.now().strftime(...)].  The result is the session state the
    run leaves; what the page draws is not modelled. *)
Definition query_converter_page
    (st : session_state) (input_text : string) (submit save_history : bool)
    (now : string) : io session_state :=
  match model st with
  | None => Ret st
  | Some _ =>
      if submit && Py.truthy (Py.strip input_text) then
        sql_query <- get_gemini_response input_text (model st) ;;
        if Py.startswith sql_query "Error" then Ret st
        else if save_history && Py.truthy sql_query && negb (Py.startswith sql_query "Error")
        then Ret {| model := model st;
                    query_history :=
                      query_history st ++
                      [ {| question := input_text; sql_query := sql_query; timestamp := now |} ] |}
        else Ret st
      else Ret st
  end.

(** ** [initialize_gemini] *)

(** The candidates of [model_names], in the order of preference. *)
Definition model_names : list string :=
  [ "gemini-2.0-flash-exp"; "gemini-1.5-flash-002"; "gemini-1.5-flash-latest";
    "gemini-1.5-flash"; "gemini-1.5-pro-002"; "gemini-1.5-pro-latest";
    "gemini-1.5-pro" ].

(** What building the handle of one candidate and probing it with
    [generate_content("Hello")] gives, as the [except] clauses of the loop
    tell the failures apart; the argument is [str(e)]. *)
Inductive probe_result : Type :=
| ProbeOk
| ProbeNotFound
| ProbePermissionDenied (msg : string)
| ProbeError (msg : string).

(** The calls of [st.error], [st.info], [st.success] and [st.warning] in
    [initialize_gemini]: which call it is and the values put into its
    text.  The fixed wording is not kept. *)
Inductive notice : Type :=
| KeyMissingError
| KeyMissingInfo
| ConnectedSuccess (name : string)
| PermissionDeniedError (name msg : string)
| CandidateWarning (name msg : string)
| NoModelError
| NoModelInfo
| InitializationError (msg : string).

(** What [initialize_gemini] depends on: the environment variable, whether
    [genai.configure] raises (and with which text), and the answer of each
    candidate to the probe. *)
Record environment : Type := {
  GOOGLE_API_KEY : option string;
  configure : string -> option string;
  probe : string -> probe_result
}.

(** What one run of the body of [initialize_gemini] leaves: the value
    returned, the notices shown and the candidates probed, both in order. *)
Record initialization : Type := {
  returned_model : option GenerativeModel;
  notices : list notice;
  probed : list string
}.

(** The [for model_name in model_names] loop and the statements after it. *)
Fixpoint try_models (probe : string -> probe_result) (names : list string)
  : initialization :=
  match names with
  | [] => {| returned_model := None; notices := [NoModelError; NoModelInfo]; probed := [] |}
  | name :: names' =>
      match probe name with
      | ProbeOk =>
          {| returned_model := Some {| model_name := name |};
             notices := [ConnectedSuccess name];
             probed := [name] |}
      | ProbeNotFound =>
          let r := try_models probe names' in
          {| returned_model := returned_model r;
             notices := notices r;
             probed := name :: probed r |}
      | ProbePermissionDenied msg =>
          let r := try_models probe names' in
          {| returned_model := returned_model r;
             notices := PermissionDeniedError name msg :: notices r;
             probed := name :: probed r |}
      | ProbeError msg =>
          let r := try_models probe names' in
          {| returned_model := returned_model r;
             notices := CandidateWarning name msg :: notices r;
             probed := name :: probed r |}
      end
  end.

(** The body of [initialize_gemini]; the memoisation of
    [st.cache_resource] around it is not modelled. *)
Definition initialize_gemini (env : environment) : initialization :=
  let no_key :=
    {| returned_model := None; notices := [KeyMissingError; KeyMissingInfo]; probed := [] |} in
  match GOOGLE_API_KEY env with
  | None => no_key
  | Some api_key =>
      if negb (Py.truthy api_key) then no_key
      else
        match configure env api_key with
        | Some msg =>
            {| returned_model := None; notices := [InitializationError msg]; probed := [] |}
        | None => try_models (probe env) model_names
        end
  end.

(** ** [history_page] *)

(** The title of the expander of one entry:
    [f"Query {idx+1}: {item['question'][:50]}..."]. *)
Definition expander_title (idx : nat) (item : HistoryEntry) : string :=
  "Query " ++ Py.str_of_nat (idx + 1) ++ ": " ++ Py.slice_to (question item) 50 ++ "...".

(** One expander as the page draws it: its title, the entry whose fields
    its body shows, and the text of the copy box when the button
    [copy_history_idx] was pressed. *)
Record expander : Type := {
  title : string;
  item : HistoryEntry;
  copy_area : option string
}.

(** The buttons of the page: the two without a key, and the buttons
    [copy_history_idx] and [regen_idx] by their index. *)
Record history_buttons : Type := {
  go_to_converter : bool;
  clear_history : bool;
  copy_query : nat -> bool;
  regenerate : nat -> bool
}.

(** How a run of the page ends: at its last statement; at the [st.rerun()]
    after the history was cleared; or at the [st.rerun()] that follows the
    assignments to [query_input] (when there is one) and [current_page],
    which ask for the converter page. *)
Inductive page_end : Type :=
| Completed
| ClearedRerun
| ToConverterRerun (query_input : option string).

Record history_run : Type := {
  history_after : list HistoryEntry;
  expanders : list expander;
  page_ended : page_end
}.

(** [enumerate(xs)] *)
Definition enumerate {A : Type} (xs : list A) : list (nat * A) :=
  combine (seq 0 (length xs)) xs.

(** The [for idx, item in enumerate(reversed(...))] loop: the expanders
    drawn, and the question asked again when a [regen_idx] button stops
    the loop. *)
Fixpoint show_history (buttons : history_buttons) (items : list (nat * HistoryEntry))
  : list expander * option string :=
  match items with
  | [] => ([], None)
  | (idx, entry) :: items' =>
      let e := {| title := expander_title idx entry;
                  item := entry;
                  copy_area := if copy_query buttons idx then Some (sql_query entry) else None |} in
      if regenerate buttons idx then ([e], Some (question entry))
      else
        let '(es, again) := show_history buttons items' in (e :: es, again)
  end.

Definition history_page (query_history : list HistoryEntry) (buttons : history_buttons)
  : history_run :=
  match query_history with
  | [] =>
      {| history_after := query_history;
         expanders := [];
         page_ended := if go_to_converter buttons then ToConverterRerun None else Completed |}
  | _ :: _ =>
      if clear_history buttons then
        {| history_after := []; expanders := []; page_ended := ClearedRerun |}
      else
        let '(es, again) := show_history buttons (enumerate (rev query_history)) in
        {| history_after := query_history;
           expanders := es;
           page_ended :=
             match again with
             | Some q => ToConverterRerun (Some q)
             | None => Completed
             end |}
  end.

(** ** Reading the definitions: notions the statements below use *)

(** [p] is an initial segment of [s]. *)
Definition starts_with (p s : string) : Prop := exists rest, s = p ++ rest.

(** [sub] occurs somewhere in [s]. *)
Definition occurs (sub s : string) : Prop := exists pre post, s = pre ++ sub ++ post.

(** Every character of [s] is whitespace. *)
Fixpoint all_space (s : string) : bool :=
  match s with
  | EmptyString => true
  | String c s' => Py.is_space c && all_space s'
  end.

(** [query] is not empty and every character of it is whitespace. *)
Definition whitespace_only (query : string) : Prop :=
  query <> "" /\ all_space query = true.

(** *** The validator's conditions, on the lower-cased trimmed text *)

Definition statement_start (t : string) : Prop :=
  starts_with "select" t \/ starts_with "insert" t \/
  starts_with "update" t \/ starts_with "delete" t.

(** A semicolon stands at a position before the final character. *)
Definition interior_semicolon (t : string) : Prop :=
  exists i, S i < String.length t /\ get i t = Some ";"%char.

Definition dangerous (t : string) : Prop :=
  occurs "drop" t \/ occurs "truncate" t \/ occurs "alter" t.

(** *** The cleaner's steps *)

(** What [clean_sql_query] does with the text once the opening fence is
    dealt with: the closing fence, the loop over the labels, the trim. *)
Definition clean_after_opening (t : string) : string :=
  let t := if Py.endswith t "```" then Py.slice_drop_last t 3 else t in
  Py.strip (fold_left remove_prefix prefixes_to_remove t).

(** The text the label loop starts from: the input without its fences. *)
Definition strip_fences (sql_query : string) : string :=
  let sql_query :=
    if Py.startswith sql_query "```sql" then Py.slice_from sql_query 6
    else if Py.startswith sql_query "```" then Py.slice_from sql_query 3
    else sql_query in
  if Py.endswith sql_query "```" then Py.slice_drop_last sql_query 3 else sql_query.

(** No fence anywhere in the text. *)
Definition no_fence (s : string) : bool := negb (Py.contains "```" s).

(** The trimmed text starts with none of the labels. *)
Definition no_label (s : string) : bool :=
  forallb (fun prefix => negb (Py.startswith (Py.strip s) prefix)) prefixes_to_remove.

(** One pass of the label loop over the labels [ps], from the text [t]:
    [pass ps t hit t'] when the pass strips exactly the labels [hit], in
    this order, and leaves [t']. *)
Inductive pass : list string -> string -> list string -> string -> Prop :=
| pass_done (t : string) : pass [] t [] t
| pass_hit (p : string) (ps : list string) (t : string) (hit : list string) (t' : string) :
    Py.startswith (Py.strip t) p = true ->
    pass ps (Py.strip (Py.slice_from (Py.strip t) (String.length p))) hit t' ->
    pass (p :: ps) t (p :: hit) t'
| pass_miss (p : string) (ps : list string) (t : string) (hit : list string) (t' : string) :
    Py.startswith (Py.strip t) p = false ->
    pass ps t hit t' ->
    pass (p :: ps) t hit t'.

(** [l] is [ps] with some elements left out: the same order, no element
    used twice. *)
Inductive subsequence {A : Type} : list A -> list A -> Prop :=
| subsequence_nil : subsequence [] []
| subsequence_take (x : A) (l ps : list A) :
    subsequence l ps -> subsequence (x :: l) (x :: ps)
| subsequence_skip (x : A) (l ps : list A) :
    subsequence l ps -> subsequence l (x :: ps).

(** The label loop as the specification words it: the first label that
    matches is stripped and the loop ends there. *)
Fixpoint remove_first_prefix (ps : list string) (t : string) : string :=
  match ps with
  | [] => t
  | p :: ps' =>
      if Py.startswith (Py.strip t) p
      then Py.strip (Py.slice_from (Py.strip t) (String.length p))
      else remove_first_prefix ps' t
  end.

(** The cleaner with that loop in place of the code's. *)
Definition clean_first_label_only (sql_query : string) : string :=
  if negb (Py.truthy sql_query) then ""
  else Py.strip (remove_first_prefix prefixes_to_remove (strip_fences sql_query)).

(** A language tag of a fence: ASCII letters and digits. *)
Definition is_tag_char (c : ascii) : bool :=
  let n := N_of_ascii c in
  ((48 <=? n) && (n <=? 57) || (65 <=? n) && (n <=? 90) || (97 <=? n) && (n <=? 122))%N.

Fixpoint is_tag (s : string) : bool :=
  match s with
  | EmptyString => true
  | String c s' => is_tag_char c && is_tag s'
  end.

(** [rest] does not go on with a tag character: the tag before it is whole. *)
Definition ends_tag (rest : string) : bool :=
  match rest with
  | EmptyString => true
  | String c _ => negb (is_tag_char c)
  end.

(** *** The orchestration function's results *)

(** The question contains [keyword] in some mix of upper and lower case. *)
Definition contains_ignoring_case (keyword question : string) : Prop :=
  exists pre w post, question = pre ++ w ++ post /\ Py.lower w = keyword.

Definition sensitive (question : string) : Prop :=
  exists keyword, In keyword SENSITIVE_KEYWORDS /\ contains_ignoring_case keyword question.

Definition too_long (question : string) : Prop :=
  MAX_QUERY_LENGTH < String.length question.

(** The failure paths of the orchestration function. *)
Inductive failure : Type :=
| SensitiveKeyword
| QueryTooLong
| ValidationRejected
| ContentPolicyBlock
| InvalidArgumentFailure
| PermissionDeniedFailure
| QuotaExhausted
| Unclassified.

(** The text by which a result tells its failure path. *)
Definition failure_tag (f : failure) : string :=
  match f with
  | SensitiveKeyword => "Error: Query contains potentially sensitive keywords"
  | QueryTooLong => "Error: Query too long"
  | ValidationRejected => "Validation Error: "
  | ContentPolicyBlock => "Error: Prompt blocked for safety reasons"
  | InvalidArgumentFailure => "Error: Invalid prompt - "
  | PermissionDeniedFailure => "Error: API key rejected - "
  | QuotaExhausted => "Error: API quota exceeded - "
  | Unclassified => "Error"
  end.

(** A result string that reports a failure. *)
Definition is_failure (result : string) : bool :=
  Py.startswith result "Error" || Py.startswith result "Validation Error: ".

(** The message of a [ValueError] speaks of a content-policy block. *)
Definition policy_message (msg : string) : Prop :=
  occurs "policy" (Py.lower msg) \/ occurs "safety" (Py.lower msg).

(** [fails question response f]: on [question], with the Generation Client
    answering [response] if it is called, the orchestration function
    takes the failure path [f]. *)
Inductive fails (question : string) (response : outcome) : failure -> Prop :=
| fails_sensitive :
    sensitive question -> fails question response SensitiveKeyword
| fails_too_long :
    ~ sensitive question -> too_long question -> fails question response QueryTooLong
| fails_validation (raw reason : string) :
    ~ sensitive question -> ~ too_long question ->
    response = Returned raw ->
    validate_sql (clean_sql_query raw) = (false, reason) ->
    fails question response ValidationRejected
| fails_policy (msg : string) :
    ~ sensitive question -> ~ too_long question ->
    response = Raised (ValueError msg) -> policy_message msg ->
    fails question response ContentPolicyBlock
| fails_value (msg : string) :
    ~ sensitive question -> ~ too_long question ->
    response = Raised (ValueError msg) -> ~ policy_message msg ->
    fails question response Unclassified
| fails_invalid_argument (msg : string) :
    ~ sensitive question -> ~ too_long question ->
    response = Raised (InvalidArgument msg) ->
    fails question response InvalidArgumentFailure
| fails_permission_denied (msg : string) :
    ~ sensitive question -> ~ too_long question ->
    response = Raised (PermissionDenied msg) ->
    fails question response PermissionDeniedFailure
| fails_quota (msg : string) :
    ~ sensitive question -> ~ too_long question ->
    response = Raised (ResourceExhausted msg) ->
    fails question response QuotaExhausted
| fails_other (msg : string) :
    ~ sensitive question -> ~ too_long question ->
    response = Raised (OtherException msg) ->
    fails question response Unclassified.

(** *** Initialization and the history page *)

(** The key is there, is not empty, and [genai.configure] accepts it. *)
Definition key_usable (env : environment) : Prop :=
  exists api_key,
    GOOGLE_API_KEY env = Some api_key /\ api_key <> "" /\ configure env api_key = None.

(** [name] stands in [names] after the candidates [before], it passes the
    probe, and none of the candidates before it does. *)
Definition first_available
    (probe : string -> probe_result) (names before : list string) (name : string) : Prop :=
  exists after,
    names = (before ++ name :: after)%list
    /\ probe name = ProbeOk
    /\ forall n, In n before -> probe n <> ProbeOk.

(** The expander the page draws for [entry] at the index [idx]. *)
Definition expander_of (buttons : history_buttons) (idx : nat) (entry : HistoryEntry)
  : expander :=
  {| title := expander_title idx entry;
     item := entry;
     copy_area := if copy_query buttons idx then Some (sql_query entry) else None |}.

(** * Facts about the string primitives *)

Module PyFacts.
Import Py.

Lemma app_empty_r (s : string) : s ++ "" = s.
Proof. induction s as [|c s IH]; simpl; [reflexivity | now rewrite IH]. Qed.

Lemma app_assoc (a b c : string) : (a ++ b) ++ c = a ++ b ++ c.
Proof. induction a as [|x a IH]; simpl; [reflexivity | now rewrite IH]. Qed.

Lemma length_app (a b : string) :
  String.length (a ++ b) = String.length a + String.length b.
Proof. induction a as [|x a IH]; simpl; [reflexivity | now rewrite IH]. Qed.

(** *** [startswith] and slices *)

Lemma startswith_app (p r : string) : startswith (p ++ r) p = true.
Proof.
  induction p as [|a p IH]; simpl; [reflexivity|].
  now rewrite Ascii.eqb_refl, IH.
Qed.

Lemma startswith_split (s p : string) :
  startswith s p = true -> s = p ++ slice_from s (String.length p).
Proof.
  revert s; induction p as [|a p IH]; intros [|b s]; simpl; try easy.
  intros H. apply andb_true_iff in H as [Hab Hs].
  apply Ascii.eqb_eq in Hab. subst b. f_equal. now apply IH.
Qed.

Lemma startswith_iff (s p : string) : startswith s p = true <-> starts_with p s.
Proof.
  split.
  - intros H. exists (slice_from s (String.length p)). now apply startswith_split.
  - intros [r ->]. apply startswith_app.
Qed.

Lemma slice_from_app (p r : string) : slice_from (p ++ r) (String.length p) = r.
Proof. induction p as [|a p IH]; simpl; [now destruct r | exact IH]. Qed.

Lemma slice_to_from (s : string) (n : nat) : slice_to s n ++ slice_from s n = s.
Proof.
  revert s; induction n as [|n IH]; intros [|c s]; simpl; try reflexivity.
  now rewrite IH.
Qed.

Lemma get_slice_to (s : string) (n i : nat) :
  get i (slice_to s n) = if (i <? n)%nat then get i s else None.
Proof.
  revert s i; induction n as [|n IH]; intros [|c s] [|i]; simpl; try reflexivity.
  - now destruct (S i <? S n)%nat.
  - rewrite IH. reflexivity.
Qed.

Lemma startswith_any_iff (s : string) (ps : list string) :
  startswith_any s ps = true <-> exists p, In p ps /\ starts_with p s.
Proof.
  unfold startswith_any. rewrite existsb_exists.
  split; intros [p [Hin Hp]]; exists p; split; trivial; now apply startswith_iff.
Qed.

(** *** [contains] *)

Lemma contains_unfold (sub s : string) :
  contains sub s =
  startswith s sub || match s with EmptyString => false | String _ s' => contains sub s' end.
Proof. now destruct s. Qed.

Lemma contains_iff (sub s : string) : contains sub s = true <-> occurs sub s.
Proof.
  split.
  - induction s as [|c s IH]; rewrite contains_unfold; intros H;
      apply orb_true_iff in H as [H|H]; try discriminate.
    + apply startswith_iff in H as [r ->]. now exists "", r.
    + apply startswith_iff in H as [r Hr]. now exists "", r.
    + destruct (IH H) as [pre [post ->]]. now exists (String c pre), post.
  - intros [pre [post ->]]. induction pre as [|c pre IH].
    + simpl. rewrite contains_unfold, startswith_app. reflexivity.
    + simpl. rewrite IH. apply orb_true_r.
Qed.

Lemma startswith_contains (s p : string) : startswith s p = true -> contains p s = true.
Proof. intros H. rewrite contains_unfold, H. reflexivity. Qed.

Lemma endswith_contains (s p : string) : endswith s p = true -> contains p s = true.
Proof.
  unfold endswith. intros H. apply andb_true_iff in H as [_ H].
  apply String.eqb_eq in H. apply contains_iff.
  exists (slice_to s (String.length s - String.length p)), "".
  rewrite app_empty_r.
  pose proof (slice_to_from s (String.length s - String.length p)) as E.
  rewrite H in E. now symmetry.
Qed.

Lemma contains_char_iff (c : ascii) (s : string) :
  contains (String c "") s = true <-> exists i, get i s = Some c.
Proof.
  induction s as [|b s IH].
  - simpl. split; [discriminate | intros [[|i] H]; discriminate].
  - rewrite contains_unfold. simpl startswith. rewrite orb_true_iff, IH. split.
    + intros [H | [i H]].
      * destruct s; rewrite ?andb_true_r in H;
          apply Ascii.eqb_eq in H; subst b; now exists 0.
      * now exists (S i).
    + intros [[|i] H]; simpl in H.
      * left. injection H as ->. rewrite Ascii.eqb_refl. now destruct s.
      * right. now exists i.
Qed.

Lemma get_some_lt (s : string) (i : nat) (c : ascii) :
  get i s = Some c -> i < String.length s.
Proof.
  revert i; induction s as [|b s IH]; intros [|i] H; simpl in *; try discriminate.
  - lia.
  - apply IH in H. lia.
Qed.

(** [';' in query[:-1]]: a semicolon stands before the last character. *)
Lemma contains_char_drop_last (c : ascii) (s : string) :
  contains (String c "") (slice_drop_last s 1) = true <->
  exists i, S i < String.length s /\ get i s = Some c.
Proof.
  unfold slice_drop_last. rewrite contains_char_iff. split.
  - intros [i H]. rewrite get_slice_to in H.
    destruct (i <? String.length s - 1)%nat eqn:E; [|discriminate].
    apply Nat.ltb_lt in E. exists i. split; [lia | assumption].
  - intros [i [Hi H]]. exists i. rewrite get_slice_to.
    replace (i <? String.length s - 1)%nat with true; [assumption|].
    symmetry. apply Nat.ltb_lt. lia.
Qed.

End PyFacts.

(** * Facts about trimming and lower-casing *)

Module TrimFacts.
Import Py PyFacts.

Lemma lower_char_space (c : ascii) : is_space c = true -> lower_char c = c.
Proof.
  destruct c as [[] [] [] [] [] [] [] []]; vm_compute; intros H;
    (reflexivity || discriminate H).
Qed.

Lemma lower_app (a b : string) : lower (a ++ b) = lower a ++ lower b.
Proof. induction a as [|c a IH]; simpl; [reflexivity | now rewrite IH]. Qed.

Lemma lower_all_space (s : string) : all_space s = true -> lower s = s.
Proof.
  induction s as [|c s IH]; simpl; [reflexivity|].
  intros H. apply andb_true_iff in H as [Hc Hs].
  now rewrite lower_char_space, IH.
Qed.

Lemma lstrip_all_space (s : string) : all_space s = true -> lstrip s = "".
Proof.
  induction s as [|c s IH]; simpl; [reflexivity|].
  intros H. apply andb_true_iff in H as [Hc Hs]. now rewrite Hc, IH.
Qed.

Lemma strip_all_space (s : string) : all_space s = true -> strip s = "".
Proof. intros H. unfold strip. now rewrite lstrip_all_space. Qed.

(** What [lstrip] returns is empty or starts with a character that is
    not whitespace. *)
Lemma lstrip_head (s : string) :
  lstrip s = "" \/ exists c r, lstrip s = String c r /\ is_space c = false.
Proof.
  induction s as [|c s IH]; simpl; [now left|].
  destruct (is_space c) eqn:E; [exact IH|].
  right. now exists c, s.
Qed.

Lemma rstrip_cons (c : ascii) (r : string) :
  is_space c = false -> exists r', rstrip (String c r) = String c r'.
Proof.
  intros H. simpl. destruct (rstrip r) as [|a r'].
  - rewrite H. now exists "".
  - now exists (String a r').
Qed.

Lemma strip_cons (c : ascii) (r : string) :
  is_space c = false -> exists r', strip (String c r) = String c r'.
Proof. intros H. unfold strip. simpl lstrip. rewrite H. now apply rstrip_cons. Qed.

Lemma rstrip_idem (s : string) : rstrip (rstrip s) = rstrip s.
Proof.
  induction s as [|c s IH]; simpl; [reflexivity|].
  destruct (rstrip s) as [|a r] eqn:E.
  - destruct (is_space c) eqn:Hc; simpl; [reflexivity | now rewrite Hc].
  - change (rstrip (String c (String a r))) with
      (match rstrip (String a r) with
       | EmptyString => if is_space c then EmptyString else String c EmptyString
       | String _ _ as r0 => String c r0
       end).
    now rewrite IH.
Qed.

Lemma strip_idem (s : string) : strip (strip s) = strip s.
Proof.
  unfold strip. destruct (lstrip_head s) as [-> | [c [r [-> Hc]]]]; [reflexivity|].
  destruct (rstrip_cons c r Hc) as [r' E]. rewrite E.
  simpl lstrip. rewrite Hc. rewrite <- E. apply rstrip_idem.
Qed.

Lemma lstrip_split (s : string) : exists pre, s = pre ++ lstrip s.
Proof.
  induction s as [|c s [pre IH]]; simpl; [now exists ""|].
  destruct (is_space c).
  - exists (String c pre). simpl. now rewrite <- IH.
  - now exists "".
Qed.

Lemma rstrip_split (s : string) : exists post, s = rstrip s ++ post.
Proof.
  induction s as [|c s [post IH]]; simpl; [now exists ""|].
  destruct (rstrip s) as [|a r].
  - simpl in IH. subst post. destruct (is_space c).
    + now exists (String c s).
    + now exists s.
  - exists post. simpl in *. now rewrite <- IH.
Qed.

(** The trimmed text is a segment of the text. *)
Lemma strip_split (s : string) : exists pre post, s = pre ++ strip s ++ post.
Proof.
  destruct (lstrip_split s) as [pre Hpre].
  destruct (rstrip_split (lstrip s)) as [post Hpost].
  exists pre, post. unfold strip. now rewrite <- Hpost.
Qed.

Lemma occurs_strip (sub s : string) : occurs sub (strip s) -> occurs sub s.
Proof.
  intros [a [b H]]. destruct (strip_split s) as [pre [post Hs]].
  exists (pre ++ a), (b ++ post). rewrite Hs at 1. rewrite H.
  now rewrite !app_assoc.
Qed.

Lemma contains_strip_false (sub s : string) :
  contains sub s = false -> contains sub (strip s) = false.
Proof.
  intros H. destruct (contains sub (strip s)) eqn:E; [|reflexivity].
  apply contains_iff, occurs_strip, contains_iff in E. congruence.
Qed.

End TrimFacts.

(** * The SQL Validator *)

Section Validator.
Import Py PyFacts TrimFacts.

Lemma truthy_false_iff (s : string) : truthy s = false <-> s = "".
Proof. destruct s; simpl; split; congruence. Qed.

Lemma statement_start_iff (t : string) :
  startswith_any t ["select"; "insert"; "update"; "delete"] = true <-> statement_start t.
Proof.
  unfold startswith_any, statement_start. cbn [existsb].
  rewrite !orb_true_iff, !startswith_iff. intuition discriminate.
Qed.

Lemma interior_semicolon_iff (t : string) :
  contains ";" (slice_drop_last t 1) = true <-> interior_semicolon t.
Proof. apply contains_char_drop_last. Qed.

Lemma dangerous_iff (t : string) :
  existsb (fun keyword => contains keyword t) ["drop"; "truncate"; "alter"] = true
  <-> dangerous t.
Proof.
  unfold dangerous. cbn [existsb].
  rewrite !orb_true_iff, !contains_iff. intuition discriminate.
Qed.

(** The checks of [validate_sql] one after the other, each read as the
    condition it tests. *)
Lemma validate_sql_checks (query : string) :
  let t := strip (lower query) in
  (query = "" /\ validate_sql query = (false, "Empty query"))
  \/ (query <> "" /\ ~ statement_start t /\
      validate_sql query = (false, "Query must start with SELECT, INSERT, UPDATE, or DELETE"))
  \/ (query <> "" /\ statement_start t /\ interior_semicolon t /\
      validate_sql query = (false, "Multiple queries not allowed"))
  \/ (query <> "" /\ statement_start t /\ ~ interior_semicolon t /\ dangerous t /\
      validate_sql query = (false, "Potentially dangerous operation detected"))
  \/ (query <> "" /\ statement_start t /\ ~ interior_semicolon t /\ ~ dangerous t /\
      validate_sql query = (true, "")).
Proof.
  intros t. unfold validate_sql. fold t.
  destruct (truthy query) eqn:Hq; cbn [negb].
  2:{ left. apply truthy_false_iff in Hq. now split. }
  assert (Hne : query <> "") by (intros ->; discriminate Hq).
  right.
  destruct (startswith_any t ["select"; "insert"; "update"; "delete"]) eqn:Hs; cbn [negb].
  2:{ left. repeat split; trivial. rewrite <- statement_start_iff. congruence. }
  apply statement_start_iff in Hs. right.
  destruct (contains ";" (slice_drop_last t 1)) eqn:Hi.
  { left. apply interior_semicolon_iff in Hi. now repeat split. }
  assert (Hni : ~ interior_semicolon t) by (rewrite <- interior_semicolon_iff; congruence).
  right.
  destruct (existsb (fun keyword => contains keyword t) ["drop"; "truncate"; "alter"]) eqn:Hd.
  { left. apply dangerous_iff in Hd. now repeat split. }
  right. repeat split; trivial. rewrite <- dangerous_iff. congruence.
Qed.

End Validator.

(** C5.  [validate_sql] accepts a query, with the empty reason, exactly when
    the query is not empty and its lower-cased trimmed form starts with
    [select], [insert], [update] or [delete], has no semicolon before its
    final character, and contains none of [drop], [truncate], [alter];
    otherwise it rejects with the reason of the first check that fails, in
    the order: empty, statement start, semicolon, dangerous word. *)
Theorem validate_sql_accepts_exactly (query : string) :
  let t := Py.strip (Py.lower query) in
  (validate_sql query = (true, "") <->
     query <> "" /\ statement_start t /\ ~ interior_semicolon t /\ ~ dangerous t)
  /\ (query = "" -> validate_sql query = (false, "Empty query"))
  /\ (query <> "" -> ~ statement_start t ->
      validate_sql query = (false, "Query must start with SELECT, INSERT, UPDATE, or DELETE"))
  /\ (query <> "" -> statement_start t -> interior_semicolon t ->
      validate_sql query = (false, "Multiple queries not allowed"))
  /\ (query <> "" -> statement_start t -> ~ interior_semicolon t -> dangerous t ->
      validate_sql query = (false, "Potentially dangerous operation detected")).
Proof.
  intros t. pose proof (validate_sql_checks query) as H. fold t in H. cbv zeta in H.
  destruct H as [[H1 E] | [[H1 [H2 E]] | [[H1 [H2 [H3 E]]] | [[H1 [H2 [H3 [H4 E]]]] | [H1 [H2 [H3 [H4 E]]]]]]]];
    rewrite E; repeat split; intros; try tauto; try discriminate; try reflexivity.
Qed.

Lemma validate_sql_accepts_exactly_witness :
  validate_sql "SELECT * FROM t;" = (true, "")
  /\ validate_sql "" = (false, "Empty query")
  /\ validate_sql "show tables" =
       (false, "Query must start with SELECT, INSERT, UPDATE, or DELETE")
  /\ validate_sql "select 1; select 2" = (false, "Multiple queries not allowed")
  /\ validate_sql "Select alter_date From t" =
       (false, "Potentially dangerous operation detected").
Proof.
  refine (conj _ (conj _ (conj _ (conj _ _)))).
  - apply (proj1 (validate_sql_accepts_exactly "SELECT * FROM t;")).
    refine (conj _ (conj _ (conj _ _))).
    + discriminate.
    + apply statement_start_iff. reflexivity.
    + rewrite <- interior_semicolon_iff. vm_compute. discriminate.
    + rewrite <- dangerous_iff. vm_compute. discriminate.
  - apply (proj1 (proj2 (validate_sql_accepts_exactly ""))). reflexivity.
  - apply (proj1 (proj2 (proj2 (validate_sql_accepts_exactly "show tables")))).
    + discriminate.
    + rewrite <- statement_start_iff. vm_compute. discriminate.
  - apply (proj1 (proj2 (proj2 (proj2 (validate_sql_accepts_exactly "select 1; select 2"))))).
    + discriminate.
    + apply statement_start_iff. reflexivity.
    + apply interior_semicolon_iff. reflexivity.
  - apply (proj2 (proj2 (proj2 (proj2 (validate_sql_accepts_exactly "Select alter_date From t"))))).
    + discriminate.
    + apply statement_start_iff. reflexivity.
    + rewrite <- interior_semicolon_iff. vm_compute. discriminate.
    + apply dangerous_iff. reflexivity.
Defined.

(** C9.  A query that is not empty and consists of whitespace only is
    rejected with the reason of the statement-start check, not with
    [Empty query]: that reason is given for the empty string and for no
    other, the emptiness test coming before the trim. *)
Theorem validate_sql_whitespace_only (query : string) :
  (whitespace_only query ->
   validate_sql query =
     (false, "Query must start with SELECT, INSERT, UPDATE, or DELETE"))
  /\ (validate_sql query = (false, "Empty query") <-> query = "").
Proof.
  pose proof (validate_sql_checks query) as H. cbv zeta in H. split.
  - intros [Hne Hws].
    rewrite (TrimFacts.lower_all_space _ Hws), (TrimFacts.strip_all_space _ Hws) in H.
    destruct H as [[H1 _] | [[_ [_ E]] | [[_ [H2 _]] | [[_ [H2 _]] | [_ [H2 _]]]]]];
      try contradiction; try exact E;
      destruct H2 as [[r Hr] | [[r Hr] | [[r Hr] | [r Hr]]]]; discriminate Hr.
  - split.
    + intros E.
      destruct H as [[H1 _] | [[_ [_ E']] | [[_ [_ [_ E']]] | [[_ [_ [_ [_ E']]]] | [_ [_ [_ [_ E']]]]]]]];
        [exact H1 | rewrite E in E'; discriminate E' ..].
    + intros ->. reflexivity.
Qed.

Lemma validate_sql_whitespace_only_witness :
  validate_sql "   " =
    (false, "Query must start with SELECT, INSERT, UPDATE, or DELETE").
Proof.
  apply (proj1 (validate_sql_whitespace_only "   ")).
  split; [discriminate | reflexivity].
Defined.

(** C2.  The raw text [Query: DROP TABLE employees] is cleaned to
    [DROP TABLE employees], and the validator rejects that text at its
    statement-start check, with the reason
    [Query must start with SELECT, INSERT, UPDATE, or DELETE]: the check
    for dangerous words, which the text would fail too, comes later and
    is not reached. *)
Theorem drop_table_rejected_at_statement_start :
  clean_sql_query "Query: DROP TABLE employees" = "DROP TABLE employees"
  /\ validate_sql (clean_sql_query "Query: DROP TABLE employees") =
       (false, "Query must start with SELECT, INSERT, UPDATE, or DELETE")
  /\ dangerous (Py.strip (Py.lower "DROP TABLE employees")).
Proof.
  refine (conj _ (conj _ _)).
  - reflexivity.
  - reflexivity.
  - left. exists "", " table employees". reflexivity.
Qed.

(** C2, as stated, fails: the reason given for [DROP TABLE employees] is
    not [Potentially dangerous operation detected]. *)
Lemma drop_table_reason_is_not_dangerous :
  ~ (clean_sql_query "Query: DROP TABLE employees" = "DROP TABLE employees"
     /\ validate_sql "DROP TABLE employees" =
          (false, "Potentially dangerous operation detected")).
Proof. intros [_ H]. vm_compute in H. discriminate H. Qed.

(** * The Response Cleaner *)

Section Cleaner.
Import Py PyFacts TrimFacts.

(** [clean_sql_query] by its steps. *)
Lemma clean_sql_query_steps (s : string) :
  clean_sql_query s =
  if truthy s then strip (fold_left remove_prefix prefixes_to_remove (strip_fences s))
  else "".
Proof. unfold clean_sql_query, strip_fences. now destruct (truthy s). Qed.

Lemma clean_sql_query_empty : clean_sql_query "" = "".
Proof. reflexivity. Qed.

(** *** The label loop *)

Lemma pass_total (ps : list string) (t : string) :
  exists hit, pass ps t hit (fold_left remove_prefix ps t).
Proof.
  revert t; induction ps as [|p ps IH]; intros t; simpl.
  - exists []. constructor.
  - unfold remove_prefix at 2.
    destruct (startswith (strip t) p) eqn:E.
    + destruct (IH (strip (slice_from (strip t) (String.length p)))) as [hit H].
      exists (p :: hit). now apply pass_hit.
    + destruct (IH t) as [hit H]. exists hit. now apply pass_miss.
Qed.

Lemma pass_deterministic (ps : list string) (t : string) (h1 h2 : list string) (t1 t2 : string) :
  pass ps t h1 t1 -> pass ps t h2 t2 -> h1 = h2 /\ t1 = t2.
Proof.
  intros H1; revert h2 t2; induction H1 as [t | p ps t hit t' E _ IH | p ps t hit t' E _ IH];
    intros h2 t2 H2; inversion H2; subst; try congruence.
  - now split.
  - match goal with H : pass ps _ _ t2 |- _ => destruct (IH _ _ H) as [-> ->] end.
    now split.
  - now apply IH.
Qed.

Lemma pass_subsequence (ps : list string) (t : string) (hit : list string) (t' : string) :
  pass ps t hit t' -> subsequence hit ps.
Proof. induction 1; now constructor. Qed.

Lemma subsequence_length {A : Type} (l ps : list A) :
  subsequence l ps -> length l <= length ps.
Proof. induction 1; simpl; lia. Qed.

Lemma remove_prefix_miss (t p : string) :
  startswith (strip t) p = false -> remove_prefix t p = t.
Proof. intros H. unfold remove_prefix. now rewrite H. Qed.

Lemma no_label_fold (t : string) :
  no_label t = true -> fold_left remove_prefix prefixes_to_remove t = t.
Proof.
  unfold no_label, prefixes_to_remove. cbn [forallb fold_left].
  rewrite !andb_true_iff, !negb_true_iff. intros [H1 [H2 [H3 [H4 _]]]].
  rewrite (remove_prefix_miss t "SQL Query:") by assumption.
  rewrite (remove_prefix_miss t "SQL:") by assumption.
  rewrite (remove_prefix_miss t "Query:") by assumption.
  now apply remove_prefix_miss.
Qed.

(** *** The fences *)

Lemma startswith_shorter (s p q : string) :
  startswith s (p ++ q) = true -> startswith s p = true.
Proof.
  rewrite !startswith_iff. intros [r ->]. exists (q ++ r). apply app_assoc.
Qed.

Lemma no_fence_strip_fences (s : string) : no_fence s = true -> strip_fences s = s.
Proof.
  unfold no_fence, strip_fences. rewrite negb_true_iff. intros H.
  assert (H3 : startswith s "```" = false).
  { destruct (startswith s "```") eqn:E; [|reflexivity].
    apply startswith_contains in E. congruence. }
  assert (H6 : startswith s "```sql" = false).
  { destruct (startswith s "```sql") eqn:E; [|reflexivity].
    apply (startswith_shorter s "```" "sql") in E. congruence. }
  assert (He : endswith s "```" = false).
  { destruct (endswith s "```") eqn:E; [|reflexivity].
    apply endswith_contains in E. congruence. }
  now rewrite H6, H3, He.
Qed.

Lemma clean_sql_query_no_fence_no_label (s : string) :
  no_fence s = true -> no_label s = true -> clean_sql_query s = strip s.
Proof.
  intros Hf Hl. rewrite clean_sql_query_steps.
  destruct s as [|c s]; [reflexivity|]. cbn [truthy].
  now rewrite no_fence_strip_fences, no_label_fold.
Qed.

End Cleaner.

(** C8.  A string with no code fence in it and no label at the start of
    its trimmed form is returned trimmed, and cleaning the result again
    changes nothing; the empty string is cleaned to the empty string. *)
Theorem clean_sql_query_on_clean_input (s : string) :
  (no_fence s = true -> no_label s = true ->
   clean_sql_query s = Py.strip s
   /\ clean_sql_query (clean_sql_query s) = clean_sql_query s)
  /\ clean_sql_query "" = "".
Proof.
  split; [|reflexivity].
  intros Hf Hl.
  assert (E : clean_sql_query s = Py.strip s)
    by now apply clean_sql_query_no_fence_no_label.
  split; [exact E|]. rewrite E.
  rewrite clean_sql_query_no_fence_no_label.
  - apply TrimFacts.strip_idem.
  - unfold no_fence in *. rewrite negb_true_iff in *.
    now apply TrimFacts.contains_strip_false.
  - unfold no_label in *. now rewrite TrimFacts.strip_idem.
Qed.

Lemma clean_sql_query_on_clean_input_witness :
  clean_sql_query "  select 1  " = "select 1"
  /\ clean_sql_query (clean_sql_query "  select 1  ") = clean_sql_query "  select 1  ".
Proof.
  apply (proj1 (clean_sql_query_on_clean_input "  select 1  ")); reflexivity.
Defined.

(** C8, as stated, fails: the cleaner is not idempotent on every string.
    [SQL: SQL: select 1] is cleaned to [SQL: select 1], and that to
    [select 1]. *)
Lemma clean_sql_query_not_idempotent :
  ~ (forall s, clean_sql_query (clean_sql_query s) = clean_sql_query s).
Proof.
  intros H. specialize (H "SQL: SQL: select 1").
  vm_compute in H. discriminate H.
Qed.

(** C3.  The cleaner goes once through the ordered list of labels and
    strips every label that the trimmed text starts with when its turn
    comes.  The labels stripped are therefore a subsequence of the list:
    each label at most once, in the order of the list, at most four in all.
    [SQL: SQL: select 1] is cleaned to [SQL: select 1], one label being
    stripped; [SQL Query: SQL: select 1] is cleaned to [select 1], two
    labels being stripped. *)
Theorem clean_sql_query_label_pass (s : string) :
  (exists hit t,
      pass prefixes_to_remove (strip_fences s) hit t
      /\ subsequence hit prefixes_to_remove
      /\ length hit <= 4
      /\ clean_sql_query s = Py.strip t)
  /\ (pass prefixes_to_remove (strip_fences "SQL: SQL: select 1") ["SQL:"] "SQL: select 1"
      /\ clean_sql_query "SQL: SQL: select 1" = "SQL: select 1")
  /\ (pass prefixes_to_remove (strip_fences "SQL Query: SQL: select 1")
        ["SQL Query:"; "SQL:"] "select 1"
      /\ clean_sql_query "SQL Query: SQL: select 1" = "select 1").
Proof.
  refine (conj _ (conj (conj _ _) (conj _ _))).
  - destruct (pass_total prefixes_to_remove (strip_fences s)) as [hit H].
    exists hit, (fold_left remove_prefix prefixes_to_remove (strip_fences s)).
    refine (conj H (conj (pass_subsequence _ _ _ _ H) (conj _ _))).
    + apply (subsequence_length hit prefixes_to_remove), (pass_subsequence _ _ _ _ H).
    + rewrite clean_sql_query_steps. destruct s as [|c s]; reflexivity.
  - apply pass_miss; [reflexivity|]. apply pass_hit; [reflexivity|].
    apply pass_miss; [reflexivity|]. apply pass_miss; [reflexivity|]. apply pass_done.
  - reflexivity.
  - apply pass_hit; [reflexivity|]. apply pass_hit; [reflexivity|].
    apply pass_miss; [reflexivity|]. apply pass_miss; [reflexivity|]. apply pass_done.
  - reflexivity.
Qed.

(** C3, as stated, fails: on [SQL Query: SQL: select 1] the cleaner strips
    two labels, so it does not stop at the first label that matches. *)
Lemma clean_sql_query_strips_two_labels :
  ~ (forall s, clean_sql_query s = clean_first_label_only s)
  /\ ~ (forall s hit t, pass prefixes_to_remove (strip_fences s) hit t -> length hit <= 1).
Proof.
  split.
  - intros H. specialize (H "SQL Query: SQL: select 1"). vm_compute in H. discriminate H.
  - intros H.
    specialize (H "SQL Query: SQL: select 1" ["SQL Query:"; "SQL:"] "select 1").
    cbn [length] in H. enough (2 <= 1) by lia. apply H.
    apply pass_hit; [reflexivity|]. apply pass_hit; [reflexivity|].
    apply pass_miss; [reflexivity|]. apply pass_miss; [reflexivity|]. apply pass_done.
Qed.

(** C7.  Of a text that begins with three backticks the cleaner removes
    the six characters of the marker with the lower-case tag [sql] when
    the text begins with them, and the three backticks alone otherwise: a
    tag other than a leading lower-case [sql], such as [SQL] or [mysql],
    stays in the text, and a bare marker is removed whole. *)
Theorem clean_sql_query_opening_fence (rest : string) :
  clean_sql_query ("```sql" ++ rest) = clean_after_opening rest
  /\ (Py.startswith rest "sql" = false ->
      clean_sql_query ("```" ++ rest) = clean_after_opening rest)
  /\ clean_sql_query ("```SQL" ++ Py.nl ++ "SELECT 1" ++ Py.nl ++ "```")
       = "SQL" ++ Py.nl ++ "SELECT 1"
  /\ clean_sql_query ("```mysql" ++ Py.nl ++ "SELECT 1" ++ Py.nl ++ "```")
       = "mysql" ++ Py.nl ++ "SELECT 1"
  /\ clean_sql_query ("```" ++ Py.nl ++ "SELECT 1" ++ Py.nl ++ "```") = "SELECT 1".
Proof.
  refine (conj _ (conj _ (conj _ (conj _ _)))); try reflexivity.
  intros H. unfold clean_sql_query, clean_after_opening.
  change (Py.startswith ("```" ++ rest) "```sql") with (Py.startswith rest "sql").
  rewrite H. reflexivity.
Qed.

Lemma clean_sql_query_opening_fence_witness :
  clean_sql_query ("```" ++ "SQL select 1") = clean_after_opening "SQL select 1".
Proof.
  apply (proj1 (proj2 (clean_sql_query_opening_fence "SQL select 1"))). reflexivity.
Defined.

(** C7, as stated, fails: the marker [```SQL] is a fence opening with a
    language tag, and the cleaner leaves the tag [SQL] in the text. *)
Lemma clean_sql_query_keeps_other_tags :
  ~ (forall tag rest,
        is_tag tag = true -> ends_tag rest = true ->
        clean_sql_query ("```" ++ tag ++ rest) = clean_after_opening rest).
Proof.
  intros H.
  specialize (H "SQL" (Py.nl ++ "SELECT 1" ++ Py.nl ++ "```") eq_refl eq_refl).
  vm_compute in H. discriminate H.
Qed.

(** * The orchestration function *)

Section Orchestration.
Import Py PyFacts TrimFacts.

Lemma lower_split (q a b : string) :
  lower q = a ++ b -> exists a' b', q = a' ++ b' /\ lower a' = a /\ lower b' = b.
Proof.
  revert q; induction a as [|x a IH]; intros q H.
  - exists "", q. now repeat split.
  - destruct q as [|c q]; simpl in H; [discriminate|].
    injection H as Hx H. destruct (IH q H) as [a' [b' [-> [Ha Hb]]]].
    exists (String c a'), b'. simpl. now rewrite Hx, Ha, Hb.
Qed.

Lemma contains_lower_iff (keyword question : string) :
  contains keyword (lower question) = true <-> contains_ignoring_case keyword question.
Proof.
  rewrite contains_iff. split.
  - intros [pre [post H]].
    apply lower_split in H as [pre' [r [-> [_ Hr]]]].
    apply lower_split in Hr as [w [post' [-> [Hw _]]]].
    now exists pre', w, post'.
  - intros [pre [w [post [-> Hw]]]].
    exists (lower pre), (lower post). now rewrite !lower_app, Hw.
Qed.

Lemma sensitive_iff (question : string) :
  existsb (fun keyword => contains keyword (lower question)) SENSITIVE_KEYWORDS = true
  <-> sensitive question.
Proof.
  rewrite existsb_exists. unfold sensitive.
  split; intros [k [Hin Hk]]; exists k; split; trivial; now apply contains_lower_iff.
Qed.

Lemma too_long_iff (question : string) :
  (MAX_QUERY_LENGTH <? String.length question)%nat = true <-> too_long question.
Proof. apply Nat.ltb_lt. Qed.

Lemma policy_message_iff (msg : string) :
  contains "policy" (lower msg) || contains "safety" (lower msg) = true
  <-> policy_message msg.
Proof. unfold policy_message. now rewrite orb_true_iff, !contains_iff. Qed.

(** A result the validator accepts is no failure report: it starts with
    one of the four statement words, in any case, and so neither with
    [Error] nor with [Validation Error]. *)
Lemma accepted_is_no_failure (result : string) :
  validate_sql result = (true, "") -> is_failure result = false.
Proof.
  intros Hv. pose proof (validate_sql_checks result) as H. cbv zeta in H.
  assert (Hs : statement_start (strip (lower result))).
  { destruct H as [[_ E] | [[_ [_ E]] | [[_ [_ [_ E]]] | [[_ [_ [_ [_ E]]]] | [_ [Hs _]]]]]];
      [rewrite E in Hv; discriminate Hv .. | exact Hs]. }
  destruct (is_failure result) eqn:Hf; [|reflexivity]. exfalso.
  unfold is_failure in Hf. apply orb_true_iff in Hf.
  assert (Hhead : exists c r, result = String c r /\ (c = "E" \/ c = "V")%char).
  { destruct Hf as [Hf | Hf]; apply startswith_iff in Hf as [r ->]; simpl; eauto. }
  destruct Hhead as [c [r [-> Hc]]]. simpl lower in Hs.
  assert (Hsp : is_space (lower_char c) = false) by (destruct Hc as [-> | ->]; reflexivity).
  destruct (strip_cons (lower_char c) (lower r) Hsp) as [r' E]. rewrite E in Hs.
  destruct Hs as [[x Hx] | [[x Hx] | [[x Hx] | [x Hx]]]];
    destruct Hc as [-> | ->]; discriminate Hx.
Qed.

(** The orchestration function by its paths. *)
Lemma get_gemini_response_paths (question : string) (m : GenerativeModel) :
  (sensitive question /\
   get_gemini_response question (Some m) =
     Ret "Error: Query contains potentially sensitive keywords")
  \/ (~ sensitive question /\ too_long question /\
      get_gemini_response question (Some m) =
        Ret "Error: Query too long (max 2000 characters)")
  \/ (~ sensitive question /\ ~ too_long question /\
      exists k,
        get_gemini_response question (Some m) = Generate m (build_prompt question) k
        /\ (forall raw,
              k (Returned raw) =
              Ret (let '(is_valid, validation_msg) := validate_sql (clean_sql_query raw) in
                   if is_valid then clean_sql_query raw
                   else "Validation Error: " ++ validation_msg))
        /\ (forall e, k (Raised e) = Ret (handle_exception e))).
Proof.
  unfold get_gemini_response.
  destruct (existsb _ SENSITIVE_KEYWORDS) eqn:Hs.
  { left. apply sensitive_iff in Hs. now split. }
  assert (Hns : ~ sensitive question) by (rewrite <- sensitive_iff; congruence).
  right.
  destruct (MAX_QUERY_LENGTH <? String.length question)%nat eqn:Hl.
  { left. apply too_long_iff in Hl. now repeat split. }
  right. split; [exact Hns|]. split; [rewrite <- too_long_iff; congruence|].
  eexists. split; [reflexivity|]. split.
  - intros raw. cbv beta iota zeta.
    now destruct (validate_sql (clean_sql_query raw)) as [[] reason].
  - reflexivity.
Qed.

End Orchestration.

Lemma validate_sql_true_reason (query reason : string) :
  validate_sql query = (true, reason) -> reason = "".
Proof.
  intros Hv. pose proof (validate_sql_checks query) as H. cbv zeta in H.
  destruct H as [[_ E] | [[_ [_ E]] | [[_ [_ [_ E]]] | [[_ [_ [_ [_ E]]]] | [_ [_ [_ [_ E]]]]]]]];
    rewrite E in Hv; congruence.
Qed.

Lemma starts_with_app (p r : string) : starts_with p (p ++ r).
Proof. now exists r. Qed.

(** C4.  With an initialized model the orchestration function returns a
    string on every question and every answer or failure of the
    Generation Client, after at most one call.  Either the client returned
    a text whose cleaned form the validator accepts, and the result is that
    cleaned query, which is no failure report; or one of the failure paths
    is taken and the result starts with the tag of that path, and with
    [Error] or [Validation Error: ]. *)
Theorem get_gemini_response_always_returns
    (question : string) (m : GenerativeModel) (c : client) :
  exists result sent,
    run c (get_gemini_response question (Some m)) = (result, sent)
    /\ length sent <= 1
    /\ ((exists raw,
            c m (build_prompt question) = Returned raw
            /\ ~ sensitive question /\ ~ too_long question
            /\ validate_sql (clean_sql_query raw) = (true, "")
            /\ result = clean_sql_query raw
            /\ is_failure result = false)
        \/ (exists f,
               fails question (c m (build_prompt question)) f
               /\ starts_with (failure_tag f) result
               /\ is_failure result = true)).
Proof.
  destruct (get_gemini_response_paths question m)
    as [[Hs E] | [[Hs [Hl E]] | [Hs [Hl [k [E [Hret Hexc]]]]]]]; rewrite E.
  - do 2 eexists. split; [reflexivity|]. split; [simpl; lia|]. right.
    exists SensitiveKeyword. split; [now constructor|]. split; [|reflexivity].
    now exists "".
  - do 2 eexists. split; [reflexivity|]. split; [simpl; lia|]. right.
    exists QueryTooLong. split; [now constructor|]. split; [|reflexivity].
    now exists " (max 2000 characters)".
  - cbn [run]. destruct (c m (build_prompt question)) as [raw | e] eqn:Hc.
    + rewrite Hret.
      destruct (validate_sql (clean_sql_query raw)) as [[] reason] eqn:Hv.
      * apply validate_sql_true_reason in Hv as Hr. subst reason.
        do 2 eexists. split; [reflexivity|]. split; [simpl; lia|]. left.
        exists raw. repeat split; trivial. now apply accepted_is_no_failure.
      * do 2 eexists. split; [reflexivity|]. split; [simpl; lia|]. right.
        exists ValidationRejected. split; [now apply (fails_validation _ _ raw reason)|].
        split; [apply starts_with_app | reflexivity].
    + rewrite Hexc.
      do 2 eexists. split; [reflexivity|]. split; [simpl; lia|]. right.
      destruct e as [msg | msg | msg | msg | msg]; cbn [handle_exception].
      * destruct (Py.contains "policy" (Py.lower msg) || Py.contains "safety" (Py.lower msg))
          eqn:Hp.
        -- exists ContentPolicyBlock. split.
           ++ apply (fails_policy _ _ msg); trivial. now apply policy_message_iff.
           ++ split; [now exists "" | reflexivity].
        -- exists Unclassified. split.
           ++ apply (fails_value _ _ msg); trivial.
              rewrite <- policy_message_iff. congruence.
           ++ split; [now exists (": " ++ msg) | reflexivity].
      * exists InvalidArgumentFailure. split; [now apply (fails_invalid_argument _ _ msg)|].
        split; [apply starts_with_app | reflexivity].
      * exists PermissionDeniedFailure. split; [now apply (fails_permission_denied _ _ msg)|].
        split; [apply starts_with_app | reflexivity].
      * exists QuotaExhausted. split; [now apply (fails_quota _ _ msg)|].
        split; [apply starts_with_app | reflexivity].
      * exists Unclassified. split; [now apply (fails_other _ _ msg)|].
        split; [now exists (" generating SQL query: " ++ msg) | reflexivity].
Qed.

(** C6.  A question that contains a sensitive keyword in any mix of case,
    or that is longer than 2000 characters, is rejected without a call of
    the Generation Client: the function returns its message at once, the
    same for every model handle and every client, and no prompt is sent;
    without a model the function fails too, and sends nothing.  The
    message of the length check contains [2000]; when both conditions
    hold the keyword check, which comes first, gives the message. *)
Theorem get_gemini_response_rejects_before_call (question : string) :
  sensitive question \/ too_long question ->
  exists message,
    (forall m, get_gemini_response question (Some m) = Ret message)
    /\ (forall m c, run c (get_gemini_response question (Some m)) = (message, []))
    /\ is_failure message = true
    /\ (sensitive question ->
        message = "Error: Query contains potentially sensitive keywords")
    /\ (~ sensitive question ->
        message = "Error: Query too long (max " ++ Py.str_of_nat MAX_QUERY_LENGTH ++ " characters)"
        /\ occurs "2000" message)
    /\ (forall (model : option GenerativeModel) c,
          exists result,
            run c (get_gemini_response question model) = (result, [])
            /\ is_failure result = true).
Proof.
  intros H.
  assert (Hcases : (sensitive question /\
                    forall m, get_gemini_response question (Some m) =
                              Ret "Error: Query contains potentially sensitive keywords")
                   \/ (~ sensitive question /\
                       forall m, get_gemini_response question (Some m) =
                                 Ret "Error: Query too long (max 2000 characters)")).
  { destruct (get_gemini_response_paths question {| model_name := "" |})
      as [[Hs _] | [[Hs [Hl _]] | [Hs [Hl _]]]].
    - left. split; [exact Hs|]. intros m.
      destruct (get_gemini_response_paths question m)
        as [[_ E] | [[Hn _] | [Hn _]]]; [exact E | contradiction ..].
    - right. split; [exact Hs|]. intros m.
      destruct (get_gemini_response_paths question m)
        as [[Hn _] | [[_ [_ E]] | [_ [Hn _]]]]; [contradiction | exact E | contradiction].
    - destruct H; contradiction. }
  destruct Hcases as [[Hs E] | [Hs E]]; eexists; (split; [exact E|]).
  - split; [intros m c; now rewrite E|]. split; [reflexivity|].
    split; [reflexivity|]. split; [contradiction|].
    intros [m|] c; [rewrite E|]; eexists; split; reflexivity.
  - split; [intros m c; now rewrite E|]. split; [reflexivity|].
    split; [contradiction|]. split.
    + intros _. split; [reflexivity|].
      now exists "Error: Query too long (max ", " characters)".
    + intros [m|] c; [rewrite E|]; eexists; split; reflexivity.
Qed.

Lemma get_gemini_response_rejects_before_call_witness :
  (forall m c,
      run c (get_gemini_response "What is my PIN?" (Some m)) =
        ("Error: Query contains potentially sensitive keywords", []))
  /\ (forall m c,
        run c (get_gemini_response (Py.repeat "a" 2001) (Some m)) =
          ("Error: Query too long (max 2000 characters)", [])).
Proof.
  split.
  - assert (Hs : sensitive "What is my PIN?").
    { exists "pin". split; [simpl; tauto|].
      exists "What is my ", "PIN", "?". split; reflexivity. }
    destruct (get_gemini_response_rejects_before_call "What is my PIN?" (or_introl Hs))
      as [message [_ [Hrun [_ [Hm _]]]]].
    intros m c. rewrite Hrun. now rewrite (Hm Hs).
  - assert (Hl : too_long (Py.repeat "a" 2001)).
    { apply too_long_iff. vm_compute. reflexivity. }
    assert (Hn : ~ sensitive (Py.repeat "a" 2001)).
    { rewrite <- sensitive_iff. vm_compute. intros H. discriminate H. }
    destruct (get_gemini_response_rejects_before_call (Py.repeat "a" 2001) (or_intror Hl))
      as [message [_ [Hrun [_ [_ [Hm _]]]]]].
    intros m c. rewrite Hrun. destruct (Hm Hn) as [-> _]. reflexivity.
Defined.

(** C10.  With no model the orchestration function returns
    [Error: Gemini AI model not initialized] at once, whatever the
    question: no keyword check, no length check, no prompt, no call. *)
Theorem get_gemini_response_without_model (question : string) :
  get_gemini_response question None = Ret "Error: Gemini AI model not initialized"
  /\ (forall c : client,
        run c (get_gemini_response question None) =
          ("Error: Gemini AI model not initialized", [])).
Proof. split; reflexivity. Qed.

(** * The submit handler and the session history *)

Section History.
Import Py PyFacts.

Lemma run_bind_fst {A B : Type} (c : client) (m : io A) (f : A -> io B) :
  fst (run c (bind m f)) = fst (run c (f (fst (run c m)))).
Proof.
  induction m as [a | m' prompt k IH]; cbn [bind run]; [reflexivity|].
  specialize (IH (c m' prompt)).
  destruct (run c (bind (k (c m' prompt)) f)) as [b s1].
  destruct (run c (k (c m' prompt))) as [a s2].
  exact IH.
Qed.

(** What the handler does with the string [get_gemini_response] gave. *)
Lemma query_converter_page_history (st : session_state) (m : GenerativeModel)
    (input_text now : string) (save_history : bool) (c : client) :
  model st = Some m ->
  truthy (strip input_text) = true ->
  let result := fst (run c (get_gemini_response input_text (Some m))) in
  query_history (fst (run c (query_converter_page st input_text true save_history now))) =
    if startswith result "Error" then query_history st
    else if save_history && truthy result
    then (query_history st ++
          [ {| question := input_text; sql_query := result; timestamp := now |} ])%list
    else query_history st.
Proof.
  intros Hm Ht result. unfold query_converter_page. rewrite Hm, Ht. cbn [andb].
  rewrite run_bind_fst. fold result.
  destruct (startswith result "Error"); [reflexivity|].
  cbn [negb]. rewrite andb_true_r.
  now destruct (save_history && truthy result).
Qed.

(** A result that starts with [Error] leaves the history as it was. *)
Lemma error_result_not_saved (st : session_state) (m : GenerativeModel)
    (input_text now : string) (save_history : bool) (c : client) :
  model st = Some m ->
  truthy (strip input_text) = true ->
  startswith (fst (run c (get_gemini_response input_text (Some m)))) "Error" = true ->
  query_history (fst (run c (query_converter_page st input_text true save_history now))) =
    query_history st.
Proof.
  intros Hm Ht He.
  rewrite (query_converter_page_history st m input_text now save_history c Hm Ht).
  cbv zeta. now rewrite He.
Qed.

(** A validation failure does not start with [Error]: with the box
    [Save to history] ticked, the handler appends the failure message to
    the history as if it were the query. *)
Lemma validation_failure_saved (st : session_state) (m : GenerativeModel)
    (input_text now raw reason : string) (c : client) :
  model st = Some m ->
  truthy (strip input_text) = true ->
  ~ sensitive input_text -> ~ too_long input_text ->
  c m (build_prompt input_text) = Returned raw ->
  validate_sql (clean_sql_query raw) = (false, reason) ->
  query_history (fst (run c (query_converter_page st input_text true true now))) =
    (query_history st ++
     [ {| question := input_text;
          sql_query := "Validation Error: " ++ reason;
          timestamp := now |} ])%list.
Proof.
  intros Hm Ht Hs Hl Hc Hv.
  rewrite (query_converter_page_history st m input_text now true c Hm Ht). cbv zeta.
  destruct (get_gemini_response_paths input_text m)
    as [[Hs' _] | [[_ [Hl' _]] | [_ [_ [k [E [Hret _]]]]]]]; try contradiction.
  rewrite E. cbn [run]. rewrite Hc, Hret, Hv. reflexivity.
Qed.

End History.

(** C1, at an input where the handler breaks it.  The question passes the
    keyword and length checks, the client answers
    [Query: DROP TABLE employees], the validator rejects the cleaned text
    and [get_gemini_response] returns the validation failure; the handler,
    which looks for the prefix [Error] only, appends an entry whose
    [sql_query] is the failure message. *)
Theorem query_converter_page_saves_validation_failure :
  let st := {| model := Some {| model_name := "gemini-1.5-flash" |}; query_history := [] |} in
  let c : client := fun _ _ => Returned "Query: DROP TABLE employees" in
  let input_text := "Remove the employees table" in
  fst (validate_sql (clean_sql_query "Query: DROP TABLE employees")) = false
  /\ fst (run c (get_gemini_response input_text (model st))) =
       "Validation Error: Query must start with SELECT, INSERT, UPDATE, or DELETE"
  /\ query_history (fst (run c (query_converter_page st input_text true true "2024-05-01 10:30"))) =
       [ {| question := input_text;
            sql_query := "Validation Error: Query must start with SELECT, INSERT, UPDATE, or DELETE";
            timestamp := "2024-05-01 10:30" |} ].
Proof. cbv zeta. refine (conj _ (conj _ _)); vm_compute; reflexivity. Qed.

(** * Further properties of the code *)

(** ** Lower-casing against trimming *)

Module CaseFacts.
Import Py PyFacts TrimFacts.

Lemma lower_char_idem (c : ascii) : lower_char (lower_char c) = lower_char c.
Proof. destruct c as [[] [] [] [] [] [] [] []]; reflexivity. Qed.

Lemma is_space_lower_char (c : ascii) : is_space (lower_char c) = is_space c.
Proof. destruct c as [[] [] [] [] [] [] [] []]; reflexivity. Qed.

Lemma lower_char_semicolon (c : ascii) : lower_char c = ";"%char <-> c = ";"%char.
Proof.
  split; [|now intros ->].
  destruct c as [[] [] [] [] [] [] [] []]; vm_compute; intros H;
    (reflexivity || discriminate H).
Qed.

Lemma lower_idem (s : string) : lower (lower s) = lower s.
Proof.
  induction s as [|c s IH]; simpl; [reflexivity|].
  now rewrite lower_char_idem, IH.
Qed.

Lemma truthy_lower (s : string) : truthy (lower s) = truthy s.
Proof. now destruct s. Qed.

Lemma length_lower (s : string) : String.length (lower s) = String.length s.
Proof. induction s as [|c s IH]; simpl; [reflexivity | now rewrite IH]. Qed.

Lemma get_lower (s : string) (i : nat) :
  get i (lower s) = option_map lower_char (get i s).
Proof.
  revert i; induction s as [|c s IH]; intros [|i]; simpl; try reflexivity.
  apply IH.
Qed.

Lemma lower_lstrip (s : string) : lower (lstrip s) = lstrip (lower s).
Proof.
  induction s as [|c s IH]; simpl; [reflexivity|].
  rewrite is_space_lower_char. destruct (is_space c); [exact IH | reflexivity].
Qed.

Lemma lower_rstrip (s : string) : lower (rstrip s) = rstrip (lower s).
Proof.
  induction s as [|c s IH]; simpl; [reflexivity|].
  rewrite <- IH, is_space_lower_char.
  destruct (rstrip s) as [|a r]; simpl; [now destruct (is_space c) | reflexivity].
Qed.

Lemma lower_strip (s : string) : lower (strip s) = strip (lower s).
Proof. unfold strip. now rewrite lower_rstrip, lower_lstrip. Qed.

Lemma interior_semicolon_lower (s : string) :
  interior_semicolon (lower s) <-> interior_semicolon s.
Proof.
  unfold interior_semicolon. split; intros [i [Hi H]]; exists i;
    rewrite length_lower in *; (split; [exact Hi|]); rewrite get_lower in *.
  - destruct (get i s) as [c|]; cbn [option_map] in H; [|discriminate H].
    injection H as H. apply (proj1 (lower_char_semicolon c)) in H. now rewrite H.
  - now rewrite H.
Qed.

End CaseFacts.

(** ** The validator *)

(** X1.  The two parts of a validation result agree: the reason is empty
    exactly when the query is accepted, and it is always one of the four
    fixed reasons or empty. *)
Theorem validate_sql_reason_shape (query : string) :
  (fst (validate_sql query) = true <-> snd (validate_sql query) = "")
  /\ In (snd (validate_sql query))
       [ ""; "Empty query";
         "Query must start with SELECT, INSERT, UPDATE, or DELETE";
         "Multiple queries not allowed";
         "Potentially dangerous operation detected" ].
Proof.
  pose proof (validate_sql_checks query) as H. cbv zeta in H.
  destruct H as [[_ E] | [[_ [_ E]] | [[_ [_ [_ E]]] | [[_ [_ [_ [_ E]]]] | [_ [_ [_ [_ E]]]]]]]];
    rewrite E; cbn [fst snd In]; (split; [split; intros H; (reflexivity || discriminate H)|]);
    tauto.
Qed.

(** X2.  The letter case of a query does not matter to the validator: the
    query and its lower-cased form get the same verdict and reason. *)
Theorem validate_sql_ignores_case (query : string) :
  validate_sql (Py.lower query) = validate_sql query.
Proof.
  unfold validate_sql.
  now rewrite CaseFacts.truthy_lower, CaseFacts.lower_idem.
Qed.

(** X3.  Whitespace around a query does not matter to the verdict; and
    when the query is not blank, the trimmed query gets the same reason
    too.  (A blank query is rejected with another reason than the empty
    one.) *)
Theorem validate_sql_ignores_outer_whitespace (query : string) :
  fst (validate_sql (Py.strip query)) = fst (validate_sql query)
  /\ (Py.strip query <> "" -> validate_sql (Py.strip query) = validate_sql query).
Proof.
  assert (Hkeep : Py.strip query <> "" ->
                  validate_sql (Py.strip query) = validate_sql query).
  { intros Hne. unfold validate_sql.
    rewrite CaseFacts.lower_strip, TrimFacts.strip_idem.
    destruct (Py.strip query) eqn:Es; [contradiction|].
    destruct query; [discriminate Es | reflexivity]. }
  split; [|exact Hkeep].
  destruct (Py.strip query) as [|c r] eqn:Es.
  - destruct query as [|c q]; [reflexivity|].
    unfold validate_sql at 2. cbn [Py.truthy negb].
    rewrite <- CaseFacts.lower_strip, Es. reflexivity.
  - rewrite Hkeep; [reflexivity | discriminate].
Qed.

Lemma validate_sql_ignores_outer_whitespace_witness :
  validate_sql (Py.strip "  select 1;  ") = validate_sql "  select 1;  ".
Proof.
  apply (proj2 (validate_sql_ignores_outer_whitespace "  select 1;  ")).
  vm_compute. discriminate.
Defined.

(** ** The cleaner *)

Module SegmentFacts.
Import Py PyFacts TrimFacts.

Lemma occurs_refl (s : string) : occurs s s.
Proof. exists "", "". simpl. now rewrite app_empty_r. Qed.

Lemma occurs_trans (a b c : string) : occurs a b -> occurs b c -> occurs a c.
Proof.
  intros [p1 [q1 ->]] [p2 [q2 ->]]. exists (p2 ++ p1), (q1 ++ q2).
  now rewrite !app_assoc.
Qed.

Lemma occurs_length (a s : string) : occurs a s -> String.length a <= String.length s.
Proof. intros [p [q ->]]. rewrite !length_app. lia. Qed.

Lemma occurs_slice_from (s : string) (n : nat) : occurs (slice_from s n) s.
Proof.
  exists (slice_to s n), "". rewrite app_empty_r. symmetry. apply slice_to_from.
Qed.

Lemma occurs_slice_to (s : string) (n : nat) : occurs (slice_to s n) s.
Proof. exists "", (slice_from s n). simpl. symmetry. apply slice_to_from. Qed.

Lemma occurs_strip_self (s : string) : occurs (strip s) s.
Proof. apply occurs_strip, occurs_refl. Qed.

Lemma occurs_remove_prefix (t p : string) : occurs (remove_prefix t p) t.
Proof.
  unfold remove_prefix. destruct (startswith (strip t) p); [|apply occurs_refl].
  eapply occurs_trans; [apply occurs_strip_self|].
  eapply occurs_trans; [apply occurs_slice_from | apply occurs_strip_self].
Qed.

Lemma occurs_fold_remove_prefix (ps : list string) (t : string) :
  occurs (fold_left remove_prefix ps t) t.
Proof.
  revert t; induction ps as [|p ps IH]; intros t; simpl; [apply occurs_refl|].
  eapply occurs_trans; [apply IH | apply occurs_remove_prefix].
Qed.

Lemma occurs_strip_fences (s : string) : occurs (strip_fences s) s.
Proof.
  unfold strip_fences.
  set (t := if startswith s "```sql" then slice_from s 6
            else if startswith s "```" then slice_from s 3 else s).
  assert (Ht : occurs t s).
  { subst t. destruct (startswith s "```sql"); [apply occurs_slice_from|].
    destruct (startswith s "```"); [apply occurs_slice_from | apply occurs_refl]. }
  destruct (endswith t "```"); [|exact Ht].
  eapply occurs_trans; [apply occurs_slice_to | exact Ht].
Qed.

(** The first character of a trimmed text is no whitespace. *)
Lemma strip_first (s : string) (c : ascii) :
  get 0 (strip s) = Some c -> is_space c = false.
Proof.
  unfold strip. destruct (lstrip_head s) as [-> | [a [r [-> Ha]]]]; [discriminate|].
  destruct (rstrip_cons a r Ha) as [r' ->]. simpl. now intros [= <-].
Qed.

(** The last character of a text trimmed on the right is no whitespace. *)
Lemma rstrip_last (s : string) (i : nat) (c : ascii) :
  get i (rstrip s) = Some c -> S i = String.length (rstrip s) -> is_space c = false.
Proof.
  revert i; induction s as [|a s IH]; intros i; simpl; [discriminate|].
  destruct (rstrip s) as [|b r].
  - destruct (is_space a) eqn:Ha; simpl; [discriminate|].
    destruct i as [|i]; simpl; [now intros [= <-] | now destruct i].
  - destruct i as [|i]; [simpl; intros _ H; discriminate H|].
    intros Hg Hl. apply (IH i); [exact Hg|]. simpl in Hl. simpl. lia.
Qed.

End SegmentFacts.

(** X4.  What the cleaner returns is trimmed: trimming it again changes
    nothing, and neither its first nor its last character is whitespace. *)
Theorem clean_sql_query_is_trimmed (s : string) :
  Py.strip (clean_sql_query s) = clean_sql_query s
  /\ (forall i c,
        get i (clean_sql_query s) = Some c ->
        i = 0 \/ S i = String.length (clean_sql_query s) ->
        Py.is_space c = false).
Proof.
  rewrite clean_sql_query_steps. destruct (Py.truthy s).
  2:{ split; [reflexivity|]. intros [|i] c H; discriminate H. }
  set (t := fold_left remove_prefix prefixes_to_remove (strip_fences s)).
  split; [apply TrimFacts.strip_idem|].
  intros i c Hg [-> | Hi].
  - now apply (SegmentFacts.strip_first t).
  - now apply (SegmentFacts.rstrip_last (Py.lstrip t) i).
Qed.

(** X5.  The cleaner only cuts text away at the two ends: what it returns
    is one unbroken piece of the raw text, and never longer than it. *)
Theorem clean_sql_query_is_segment (s : string) :
  occurs (clean_sql_query s) s
  /\ String.length (clean_sql_query s) <= String.length s.
Proof.
  assert (H : occurs (clean_sql_query s) s).
  { rewrite clean_sql_query_steps. destruct s as [|c s]; [apply SegmentFacts.occurs_refl|].
    cbn [Py.truthy].
    eapply SegmentFacts.occurs_trans; [apply SegmentFacts.occurs_strip_self|].
    eapply SegmentFacts.occurs_trans;
      [apply SegmentFacts.occurs_fold_remove_prefix | apply SegmentFacts.occurs_strip_fences]. }
  split; [exact H | now apply SegmentFacts.occurs_length].
Qed.

Module BlankFacts.
Import Py PyFacts TrimFacts.

Lemma rstrip_all_space (s : string) : all_space s = true -> rstrip s = "".
Proof.
  induction s as [|c s IH]; simpl; [reflexivity|].
  intros H. apply andb_true_iff in H as [Hc Hs]. now rewrite IH, Hc.
Qed.

Lemma rstrip_app_space (a w : string) : all_space w = true -> rstrip (a ++ w) = rstrip a.
Proof.
  intros Hw. induction a as [|c a IH]; simpl; [now apply rstrip_all_space|].
  now rewrite IH.
Qed.

Lemma lstrip_space_app (w a : string) : all_space w = true -> lstrip (w ++ a) = lstrip a.
Proof.
  induction w as [|c w IH]; simpl; [reflexivity|].
  intros H. apply andb_true_iff in H as [Hc Hw]. rewrite Hc. now apply IH.
Qed.

Lemma strip_space_app (w a : string) : all_space w = true -> strip (w ++ a) = strip a.
Proof. intros H. unfold strip. now rewrite lstrip_space_app. Qed.

Lemma strip_app_space (a w : string) : all_space w = true -> strip (a ++ w) = strip a.
Proof.
  intros Hw. unfold strip. induction a as [|c a IH]; simpl.
  - now rewrite lstrip_all_space.
  - destruct (is_space c); [exact IH|].
    apply (rstrip_app_space (String c a) w Hw).
Qed.

(** The case of [rstrip] on a text with a known beginning. *)
Lemma rstrip_app (a b : string) :
  rstrip (a ++ b) =
  match rstrip b with
  | EmptyString => rstrip a
  | String _ _ => a ++ rstrip b
  end.
Proof.
  induction a as [|c a IH]; simpl.
  - now destruct (rstrip b).
  - rewrite IH. destruct (rstrip b) as [|x r]; [reflexivity|]. now destruct a.
Qed.

Lemma lstrip_rstrip (s : string) : lstrip (rstrip s) = rstrip (lstrip s).
Proof.
  induction s as [|c s IH]; [reflexivity|].
  destruct (is_space c) eqn:Hc.
  - simpl. rewrite Hc. destruct (rstrip s) as [|a r] eqn:E.
    + now rewrite <- IH.
    + rewrite <- IH. simpl. now rewrite Hc.
  - simpl lstrip at 2. rewrite Hc.
    destruct (rstrip_cons c s Hc) as [r E]. rewrite E. simpl. now rewrite Hc.
Qed.

Lemma strip_rstrip (s : string) : strip (rstrip s) = strip s.
Proof. unfold strip. now rewrite lstrip_rstrip, rstrip_idem. Qed.

Lemma contains_fence_cons (c : ascii) (r : string) :
  Ascii.eqb "`" c = false -> contains "```" (String c r) = contains "```" r.
Proof.
  intros H. rewrite contains_unfold.
  change (startswith (String c r) "```") with (Ascii.eqb "`" c && startswith r "``").
  now rewrite H.
Qed.

Lemma is_space_not_backquote (c : ascii) : is_space c = true -> Ascii.eqb "`" c = false.
Proof.
  destruct c as [[] [] [] [] [] [] [] []]; vm_compute; intros H;
    (reflexivity || discriminate H).
Qed.

Lemma no_fence_all_space (s : string) : all_space s = true -> no_fence s = true.
Proof.
  unfold no_fence. induction s as [|c s IH]; simpl all_space; [reflexivity|].
  intros H. apply andb_true_iff in H as [Hc Hs].
  rewrite contains_fence_cons by now apply is_space_not_backquote. now apply IH.
Qed.

Lemma endswith_app (x p : string) : endswith (x ++ p) p = true.
Proof.
  unfold endswith. rewrite length_app.
  replace (String.length x + String.length p - String.length p) with (String.length x) by lia.
  rewrite slice_from_app, String.eqb_refl.
  replace (String.length p <=? String.length x + String.length p)%nat with true; [reflexivity|].
  symmetry. apply Nat.leb_le. lia.
Qed.

Lemma slice_to_app (x p : string) : slice_to (x ++ p) (String.length x) = x.
Proof. induction x as [|c x IH]; simpl; [reflexivity | now rewrite IH]. Qed.

Lemma slice_drop_last_app (x p : string) :
  slice_drop_last (x ++ p) (String.length p) = x.
Proof.
  unfold slice_drop_last. rewrite length_app.
  replace (String.length x + String.length p - String.length p) with (String.length x) by lia.
  apply slice_to_app.
Qed.

End BlankFacts.

Section CleanerMore.
Import Py PyFacts TrimFacts BlankFacts.

Lemma no_label_same_strip (a b : string) : strip a = strip b -> no_label a = no_label b.
Proof. intros H. unfold no_label. now rewrite H. Qed.

(** A text that is empty or all whitespace is cleaned to the empty text. *)
Lemma clean_sql_query_blank (s : string) : all_space s = true -> clean_sql_query s = "".
Proof.
  intros H. rewrite clean_sql_query_no_fence_no_label.
  - now apply strip_all_space.
  - now apply no_fence_all_space.
  - unfold no_label. now rewrite strip_all_space.
Qed.

Lemma clean_sql_query_sql_fence (rest : string) :
  clean_sql_query ("```sql" ++ rest) = clean_after_opening rest.
Proof. reflexivity. Qed.

Lemma clean_sql_query_bare_fence (c : ascii) (rest : string) :
  is_space c = true ->
  clean_sql_query ("```" ++ String c rest) = clean_after_opening (String c rest).
Proof.
  intros H. unfold clean_sql_query, clean_after_opening.
  change (startswith ("```" ++ String c rest) "```sql")
    with (Ascii.eqb "s" c && startswith rest "ql").
  replace (Ascii.eqb "s" c) with false; [reflexivity|].
  destruct c as [[] [] [] [] [] [] [] []]; vm_compute in H |- *;
    (reflexivity || discriminate H).
Qed.

(** The text between two fences, with whitespace around it. *)
Lemma clean_after_opening_block (w1 body w2 : string) :
  all_space w1 = true -> all_space w2 = true -> no_label body = true ->
  clean_after_opening (w1 ++ body ++ w2 ++ "```") = strip body.
Proof.
  intros H1 H2 Hl. unfold clean_after_opening.
  replace (w1 ++ body ++ w2 ++ "```") with ((w1 ++ body ++ w2) ++ "```")
    by now rewrite !app_assoc.
  rewrite endswith_app.
  change 3 with (String.length "```"). rewrite slice_drop_last_app.
  assert (Es : strip (w1 ++ body ++ w2) = strip body).
  { rewrite strip_space_app by assumption. now apply strip_app_space. }
  rewrite no_label_fold.
  - exact Es.
  - now rewrite (no_label_same_strip _ body Es).
Qed.

End CleanerMore.

(** X6.  A query wrapped in a code block is unwrapped: for a text made of
    the opening marker [```sql], whitespace, a body whose trimmed form
    starts with no label, whitespace and the closing marker, the cleaner
    returns the body trimmed; the same holds after a bare opening marker
    when whitespace follows it. *)
Theorem clean_sql_query_fenced_block (w1 body w2 : string) :
  all_space w1 = true -> all_space w2 = true -> no_label body = true ->
  clean_sql_query ("```sql" ++ w1 ++ body ++ w2 ++ "```") = Py.strip body
  /\ (w1 <> "" ->
      clean_sql_query ("```" ++ w1 ++ body ++ w2 ++ "```") = Py.strip body).
Proof.
  intros H1 H2 Hl. split.
  - rewrite clean_sql_query_sql_fence. now apply clean_after_opening_block.
  - intros Hne. destruct w1 as [|c w1]; [contradiction|].
    simpl in H1. apply andb_true_iff in H1 as [Hc H1].
    change (String c w1 ++ body ++ w2 ++ "```")
      with (String c (w1 ++ body ++ w2 ++ "```")).
    rewrite clean_sql_query_bare_fence by exact Hc.
    apply (clean_after_opening_block (String c w1) body w2); trivial.
    simpl. now rewrite Hc, H1.
Qed.

Lemma clean_sql_query_fenced_block_witness :
  clean_sql_query ("```sql" ++ Py.nl ++ "SELECT * FROM employees;" ++ Py.nl ++ "```")
    = "SELECT * FROM employees;"
  /\ clean_sql_query ("```" ++ Py.nl ++ "SELECT * FROM employees;" ++ Py.nl ++ "```")
    = "SELECT * FROM employees;".
Proof.
  destruct (clean_sql_query_fenced_block Py.nl "SELECT * FROM employees;" Py.nl
              eq_refl eq_refl eq_refl) as [H1 H2].
  split; [exact H1 | apply H2; discriminate].
Defined.

Section LabelMore.
Import Py PyFacts TrimFacts BlankFacts.

(** Trimming a text that begins with a label leaves the label in front. *)
Lemma strip_label_app (label body : string) :
  In label prefixes_to_remove -> strip (label ++ body) = label ++ rstrip body.
Proof.
  intros H. unfold strip.
  assert (Hl : lstrip (label ++ body) = label ++ body /\ rstrip label = label).
  { simpl in H. destruct H as [<- | [<- | [<- | [<- | []]]]]; split; reflexivity. }
  destruct Hl as [-> Hr]. rewrite rstrip_app.
  destruct (rstrip body); [now rewrite Hr, app_empty_r | reflexivity].
Qed.

Lemma remove_prefix_own_label (label body : string) :
  In label prefixes_to_remove -> remove_prefix (label ++ body) label = strip body.
Proof.
  intros H. unfold remove_prefix. rewrite strip_label_app by exact H.
  now rewrite startswith_app, slice_from_app, strip_rstrip.
Qed.

Lemma remove_prefix_other_label (label other body : string) :
  In label prefixes_to_remove -> In other prefixes_to_remove -> other <> label ->
  remove_prefix (label ++ body) other = label ++ body.
Proof.
  intros Hl Ho Hne. apply remove_prefix_miss. rewrite strip_label_app by exact Hl.
  simpl in Hl, Ho.
  destruct Hl as [<- | [<- | [<- | [<- | []]]]];
    destruct Ho as [<- | [<- | [<- | [<- | []]]]];
    try reflexivity; contradiction.
Qed.

Lemma no_fence_label_app (label body : string) :
  In label prefixes_to_remove -> no_fence (label ++ body) = no_fence body.
Proof.
  intros H. unfold no_fence. simpl in H.
  destruct H as [<- | [<- | [<- | [<- | []]]]]; simpl append;
    now rewrite !contains_fence_cons by reflexivity.
Qed.

Lemma no_label_strip_miss (body p : string) :
  no_label body = true -> In p prefixes_to_remove -> remove_prefix (strip body) p = strip body.
Proof.
  intros Hl Hp. apply remove_prefix_miss. rewrite strip_idem.
  unfold no_label in Hl. rewrite forallb_forall in Hl.
  apply negb_true_iff. now apply Hl.
Qed.

End LabelMore.

(** X7.  One label in front of a query is stripped: for each of the four
    labels, and a body with no fence in it whose trimmed form starts with
    no label, the cleaner turns the label followed by the body into the
    body trimmed. *)
Theorem clean_sql_query_strips_label (label body : string) :
  In label prefixes_to_remove -> no_fence body = true -> no_label body = true ->
  clean_sql_query (label ++ body) = Py.strip body.
Proof.
  intros Hin Hf Hl. rewrite clean_sql_query_steps.
  assert (Ht : Py.truthy (label ++ body) = true).
  { simpl in Hin. destruct Hin as [<- | [<- | [<- | [<- | []]]]]; reflexivity. }
  rewrite Ht, no_fence_strip_fences by now rewrite no_fence_label_app.
  assert (Hfold : fold_left remove_prefix prefixes_to_remove (label ++ body) = Py.strip body).
  { pose proof (remove_prefix_own_label label body Hin) as Hown.
    pose proof (fun other Ho Hne => remove_prefix_other_label label other body Hin Ho Hne) as Hoth.
    pose proof (no_label_strip_miss body) as Hmiss.
    unfold prefixes_to_remove in *. cbn [fold_left].
    simpl in Hin. destruct Hin as [<- | [<- | [<- | [<- | []]]]];
      repeat first
        [ rewrite Hown
        | rewrite Hoth by (simpl; first [tauto | discriminate])
        | rewrite Hmiss by (simpl; tauto) ];
      reflexivity. }
  rewrite Hfold. apply TrimFacts.strip_idem.
Qed.

Lemma clean_sql_query_strips_label_witness :
  clean_sql_query ("Answer:" ++ " select 1 ") = "select 1".
Proof.
  apply (clean_sql_query_strips_label "Answer:" " select 1 ");
    [simpl; tauto | reflexivity | reflexivity].
Defined.

(** ** The orchestration function *)

Section OrchestrationMore.
Import Py PyFacts TrimFacts.

Lemma strip_clean_sql_query (s : string) : strip (clean_sql_query s) = clean_sql_query s.
Proof.
  rewrite clean_sql_query_steps. destruct (truthy s); [apply strip_idem | reflexivity].
Qed.

Lemma run_bind {A B : Type} (c : client) (m : io A) (f : A -> io B) :
  run c (bind m f) =
  (fst (run c (f (fst (run c m)))), (snd (run c m) ++ snd (run c (f (fst (run c m)))))%list).
Proof.
  induction m as [a | m' prompt k IH]; cbn [bind run].
  - cbn [fst snd app]. now destruct (run c (f a)).
  - rewrite (IH (c m' prompt)).
    destruct (run c (k (c m' prompt))) as [a s]. reflexivity.
Qed.

(** The result of the function, when a model is there: a failure report,
    or the cleaned text of the answer, which the validator accepts. *)
Lemma get_gemini_response_result (question : string) (m : GenerativeModel) (c : client) :
  let result := fst (run c (get_gemini_response question (Some m))) in
  is_failure result = true
  \/ (exists raw,
         c m (build_prompt question) = Returned raw
         /\ result = clean_sql_query raw
         /\ validate_sql result = (true, "")).
Proof.
  cbv zeta.
  destruct (get_gemini_response_paths question m)
    as [[_ E] | [[_ [_ E]] | [_ [_ [k [E [Hret Hexc]]]]]]]; rewrite E.
  - now left.
  - now left.
  - cbn [run]. destruct (c m (build_prompt question)) as [raw | e] eqn:Hc.
    + rewrite Hret.
      destruct (validate_sql (clean_sql_query raw)) as [[] reason] eqn:Hv.
      * right. exists raw. cbn [run fst]. repeat split.
        now rewrite (validate_sql_true_reason _ _ Hv) in Hv.
      * now left.
    + rewrite Hexc. left. cbn [run fst].
      destruct e as [msg | msg | msg | msg | msg]; cbn [handle_exception]; try reflexivity.
      now destruct (contains "policy" (lower msg) || contains "safety" (lower msg)).
Qed.

(** The prompts sent, when a model is there. *)
Lemma get_gemini_response_sent (question : string) (m : GenerativeModel) (c : client) :
  snd (run c (get_gemini_response question (Some m))) =
  if existsb (fun keyword => contains keyword (lower question)) SENSITIVE_KEYWORDS
  then []
  else if (MAX_QUERY_LENGTH <? String.length question)%nat then []
  else [build_prompt question].
Proof.
  unfold get_gemini_response.
  destruct (existsb _ SENSITIVE_KEYWORDS); [reflexivity|].
  destruct (MAX_QUERY_LENGTH <? String.length question)%nat; [reflexivity|].
  cbn [run]. destruct (c m (build_prompt question)) as [raw | e].
  - destruct (validate_sql (clean_sql_query raw)) as [[] reason]; reflexivity.
  - reflexivity.
Qed.

Lemma failure_not_blank (result : string) : is_failure result = true -> strip result <> "".
Proof.
  unfold is_failure. intros H. apply orb_true_iff in H.
  destruct H as [H | H]; apply startswith_iff in H as [r ->].
  - change ("Error" ++ r) with (String "E" ("rror" ++ r)).
    destruct (strip_cons "E" ("rror" ++ r) eq_refl) as [r' ->]. discriminate.
  - change ("Validation Error: " ++ r) with (String "V" ("alidation Error: " ++ r)).
    destruct (strip_cons "V" ("alidation Error: " ++ r) eq_refl) as [r' ->]. discriminate.
Qed.

Lemma accepted_statement_start (result : string) :
  validate_sql result = (true, "") ->
  statement_start (strip (lower result))
  /\ ~ interior_semicolon (strip (lower result))
  /\ ~ dangerous (strip (lower result)).
Proof.
  intros Hv. pose proof (validate_sql_checks result) as H. cbv zeta in H.
  destruct H as [[_ E] | [[_ [_ E]] | [[_ [_ [_ E]]] | [[_ [_ [_ [_ E]]]] | [_ [H1 [H2 [H3 _]]]]]]]];
    [rewrite E in Hv; discriminate Hv .. | now repeat split].
Qed.

Lemma accepted_not_blank (result : string) :
  validate_sql result = (true, "") -> strip result <> "".
Proof.
  intros Hv. apply accepted_statement_start in Hv as [Hs _].
  rewrite <- CaseFacts.lower_strip in Hs. intros E. rewrite E in Hs.
  destruct Hs as [[r Hr] | [[r Hr] | [[r Hr] | [r Hr]]]]; discriminate Hr.
Qed.

Lemma get_gemini_response_never_blank_aux
    (question : string) (model : option GenerativeModel) (c : client) :
  strip (fst (run c (get_gemini_response question model))) <> "".
Proof.
  destruct model as [m|]; [|vm_compute; discriminate].
  destruct (get_gemini_response_result question m c) as [H | [raw [_ [_ H]]]].
  - now apply failure_not_blank.
  - now apply accepted_not_blank.
Qed.

End OrchestrationMore.

(** X8.  A question with no sensitive keyword and of at most 2000
    characters, the bound included, causes exactly one call of the
    Generation Client, whatever the client answers: there is no second
    attempt.  The prompt of that call contains the question as typed. *)
Theorem get_gemini_response_calls_once
    (question : string) (m : GenerativeModel) (c : client) :
  ~ sensitive question -> String.length question <= MAX_QUERY_LENGTH ->
  snd (run c (get_gemini_response question (Some m))) = [build_prompt question]
  /\ occurs question (build_prompt question).
Proof.
  intros Hs Hl. split.
  - rewrite get_gemini_response_sent.
    destruct (existsb _ SENSITIVE_KEYWORDS) eqn:E.
    { apply sensitive_iff in E. contradiction. }
    replace (MAX_QUERY_LENGTH <? String.length question)%nat with false; [reflexivity|].
    symmetry. apply Nat.ltb_ge. exact Hl.
  - now exists prompt_head, prompt_tail.
Qed.

Lemma get_gemini_response_calls_once_witness :
  snd (run (fun _ _ => Raised (ResourceExhausted "quota"))
           (get_gemini_response (Py.repeat "a" 2000) (Some {| model_name := "gemini-1.5-pro" |})))
  = [build_prompt (Py.repeat "a" 2000)].
Proof.
  apply (get_gemini_response_calls_once (Py.repeat "a" 2000) {| model_name := "gemini-1.5-pro" |}
           (fun _ _ => Raised (ResourceExhausted "quota"))).
  - rewrite <- sensitive_iff. vm_compute. intros H. discriminate H.
  - apply Nat.leb_le. vm_compute. reflexivity.
Defined.

(** X9.  The function never returns an empty or blank string, with or
    without a model: the result, trimmed, is not empty.  So the branch of
    the page for an empty result is never taken. *)
Theorem get_gemini_response_never_blank
    (question : string) (model : option GenerativeModel) (c : client) :
  Py.strip (fst (run c (get_gemini_response question model))) <> "".
Proof.
  destruct model as [m|]; [|vm_compute; discriminate].
  destruct (get_gemini_response_result question m c) as [H | [raw [_ [_ H]]]].
  - now apply failure_not_blank.
  - now apply accepted_not_blank.
Qed.

(** X10.  A result that is no failure report is a query the validator
    accepts as it stands: it is trimmed, begins with [select], [insert],
    [update] or [delete] in some mix of case, has no semicolon before its
    last character, and contains none of [drop], [truncate], [alter] in
    any mix of case. *)
Theorem get_gemini_response_success_shape
    (question : string) (m : GenerativeModel) (c : client) :
  let result := fst (run c (get_gemini_response question (Some m))) in
  is_failure result = false ->
  validate_sql result = (true, "")
  /\ Py.strip result = result
  /\ statement_start (Py.lower result)
  /\ ~ interior_semicolon result
  /\ ~ dangerous (Py.lower result).
Proof.
  cbv zeta. intros Hf.
  destruct (get_gemini_response_result question m c) as [H | [raw [_ [Hr Hv]]]];
    [congruence|].
  assert (Hs : Py.strip (fst (run c (get_gemini_response question (Some m)))) =
               fst (run c (get_gemini_response question (Some m)))).
  { rewrite Hr. apply strip_clean_sql_query. }
  split; [exact Hv|]. split; [exact Hs|].
  apply accepted_statement_start in Hv.
  rewrite <- CaseFacts.lower_strip, Hs in Hv. destruct Hv as [H1 [H2 H3]].
  split; [exact H1|]. split; [|exact H3].
  now rewrite <- CaseFacts.interior_semicolon_lower.
Qed.

Lemma get_gemini_response_success_shape_witness :
  let c : client := fun _ _ => Returned ("```sql" ++ Py.nl ++ "SELECT name FROM employees;" ++ Py.nl ++ "```") in
  let result :=
    fst (run c (get_gemini_response "List the employees" (Some {| model_name := "gemini-1.5-pro" |}))) in
  result = "SELECT name FROM employees;"
  /\ validate_sql result = (true, "")
  /\ statement_start (Py.lower result).
Proof.
  cbv zeta.
  destruct (get_gemini_response_success_shape "List the employees"
              {| model_name := "gemini-1.5-pro" |}
              (fun _ _ => Returned ("```sql" ++ Py.nl ++ "SELECT name FROM employees;" ++ Py.nl ++ "```"))
              eq_refl) as [Hv [_ [Hs _]]].
  split; [reflexivity|]. split; [exact Hv | exact Hs].
Defined.

(** X11.  When the Generation Client answers with an empty text or with
    whitespace only, the cleaned text is empty and the function returns
    [Validation Error: Empty query]. *)
Theorem get_gemini_response_blank_answer
    (question raw : string) (m : GenerativeModel) (c : client) :
  ~ sensitive question -> ~ too_long question ->
  c m (build_prompt question) = Returned raw ->
  all_space raw = true ->
  clean_sql_query raw = ""
  /\ run c (get_gemini_response question (Some m)) =
       ("Validation Error: Empty query", [build_prompt question]).
Proof.
  intros Hs Hl Hc Hw.
  assert (E : clean_sql_query raw = "") by now apply clean_sql_query_blank.
  split; [exact E|].
  destruct (get_gemini_response_paths question m)
    as [[Hs' _] | [[_ [Hl' _]] | [_ [_ [k [Ek [Hret _]]]]]]]; try contradiction.
  rewrite Ek. cbn [run]. rewrite Hc, Hret, E. reflexivity.
Qed.

Lemma get_gemini_response_blank_answer_witness :
  run (fun _ _ => Returned ("  " ++ Py.nl))
      (get_gemini_response "List the employees" (Some {| model_name := "gemini-1.5-pro" |})) =
    ("Validation Error: Empty query", [build_prompt "List the employees"]).
Proof.
  apply (get_gemini_response_blank_answer "List the employees" ("  " ++ Py.nl)
           {| model_name := "gemini-1.5-pro" |} (fun _ _ => Returned ("  " ++ Py.nl))).
  - rewrite <- sensitive_iff. vm_compute. intros H. discriminate H.
  - rewrite <- too_long_iff. vm_compute. intros H. discriminate H.
  - reflexivity.
  - reflexivity.
Defined.

(** ** The submit handler *)

Section HistoryMore.
Import Py PyFacts TrimFacts.

(** The state a run of the handler leaves, and the prompts it sends. *)
Lemma query_converter_page_state (st : session_state) (input_text now : string)
    (submit save_history : bool) (c : client) :
  let result := fst (run c (get_gemini_response input_text (model st))) in
  let engaged :=
    match model st with Some _ => submit && truthy (strip input_text) | None => false end in
  run c (query_converter_page st input_text submit save_history now) =
    ( if engaged && save_history && negb (startswith result "Error")
      then {| model := model st;
              query_history :=
                query_history st ++
                [ {| question := input_text; sql_query := result; timestamp := now |} ] |}
      else st,
      if engaged then snd (run c (get_gemini_response input_text (model st))) else [] ).
Proof.
  cbv zeta. unfold query_converter_page.
  destruct (model st) as [m|] eqn:Hm; [|reflexivity].
  destruct (submit && truthy (strip input_text)); [|reflexivity].
  rewrite run_bind. cbn [andb].
  set (result := fst (run c (get_gemini_response input_text (Some m)))).
  assert (Ht : truthy result = true).
  { pose proof (get_gemini_response_never_blank_aux input_text (Some m) c) as H.
    fold result in H. destruct result; [now destruct H | reflexivity]. }
  destruct (startswith result "Error"); cbn [negb andb].
  - rewrite andb_false_r. cbn [run fst snd]. now rewrite app_nil_r.
  - rewrite Ht, !andb_true_r.
    destruct save_history; cbn [run fst snd]; now rewrite app_nil_r.
Qed.

End HistoryMore.


(** X13.  What an entry added by the handler holds.  An entry is added
    only on a submit with the box [Save to history] ticked, a model there
    and a question that is not blank; its query is the string that
    [get_gemini_response] returned, which does not start with [Error] and
    is either a query the validator accepts or a report that starts with
    [Validation Error: ]. *)
Theorem query_converter_page_saved_entry (st : session_state) (input_text now : string)
    (submit save_history : bool) (c : client) (e : HistoryEntry) :
  query_history (fst (run c (query_converter_page st input_text submit save_history now))) =
    (query_history st ++ [e])%list ->
  submit = true /\ save_history = true /\ model st <> None /\ Py.strip input_text <> ""
  /\ question e = input_text /\ timestamp e = now
  /\ sql_query e = fst (run c (get_gemini_response input_text (model st)))
  /\ Py.startswith (sql_query e) "Error" = false
  /\ (validate_sql (sql_query e) = (true, "")
      \/ starts_with "Validation Error: " (sql_query e)).
Proof.
  pose proof (query_converter_page_state st input_text now submit save_history c) as H.
  cbv zeta in H. rewrite H. cbn [fst]. clear H.
  set (result := fst (run c (get_gemini_response input_text (model st)))).
  destruct (model st) as [m|] eqn:Hm.
  2:{ cbn [andb]. intros E. apply (f_equal (@length _)) in E.
      rewrite length_app in E. simpl in E. lia. }
  destruct submit; cbn [andb].
  2:{ intros E. apply (f_equal (@length _)) in E.
      rewrite length_app in E. simpl in E. lia. }
  destruct (Py.truthy (Py.strip input_text)) eqn:Ht; cbn [andb].
  2:{ intros E. apply (f_equal (@length _)) in E.
      rewrite length_app in E. simpl in E. lia. }
  destruct save_history; cbn [andb].
  2:{ intros E. apply (f_equal (@length _)) in E.
      rewrite length_app in E. simpl in E. lia. }
  destruct (Py.startswith result "Error") eqn:He; cbn [negb].
  { intros E. apply (f_equal (@length _)) in E.
    rewrite length_app in E. simpl in E. lia. }
  cbn [query_history]. intros E. apply app_inv_head in E. injection E as <-.
  cbn [question timestamp sql_query].
  repeat (split; [first [reflexivity | discriminate | assumption
                        | intros E; rewrite E in Ht; discriminate Ht]|]).
  destruct (get_gemini_response_result input_text m c) as [Hf | [raw [_ [_ Hv]]]].
  - right. fold result in Hf. unfold is_failure in Hf. rewrite He in Hf.
    now apply PyFacts.startswith_iff.
  - left. exact Hv.
Qed.

Lemma query_converter_page_saved_entry_witness :
  let st := {| model := Some {| model_name := "gemini-1.5-pro" |}; query_history := [] |} in
  let c : client := fun _ _ => Returned "SQL Query: SELECT name FROM employees;" in
  let e := {| question := "List the employees";
              sql_query := "SELECT name FROM employees;";
              timestamp := "2024-05-01 10:30" |} in
  validate_sql (sql_query e) = (true, "") \/ starts_with "Validation Error: " (sql_query e).
Proof.
  cbv zeta.
  refine (proj2 (proj2 (proj2 (proj2 (proj2 (proj2 (proj2 (proj2
    (query_converter_page_saved_entry
       {| model := Some {| model_name := "gemini-1.5-pro" |}; query_history := [] |}
       "List the employees" "2024-05-01 10:30" true true
       (fun _ _ => Returned "SQL Query: SELECT name FROM employees;")
       {| question := "List the employees";
          sql_query := "SELECT name FROM employees;";
          timestamp := "2024-05-01 10:30" |} _))))))))).
  vm_compute. reflexivity.
Defined.



(** ** Initialization *)

Section Initialization.

Lemma probe_ok_dec (r : probe_result) : r = ProbeOk \/ r <> ProbeOk.
Proof. destruct r; [now left | right; discriminate ..]. Qed.

(** The loop over the candidates: it stops at the first one that passes
    the probe, or goes through them all. *)
Lemma try_models_cases (probe : string -> probe_result) (names : list string) :
  (exists before name,
      first_available probe names before name
      /\ returned_model (try_models probe names) = Some {| model_name := name |}
      /\ probed (try_models probe names) = (before ++ [name])%list)
  \/ ((forall n, In n names -> probe n <> ProbeOk)
      /\ returned_model (try_models probe names) = None
      /\ probed (try_models probe names) = names).
Proof.
  induction names as [|name names IH].
  - right. repeat split. intros n [].
  - cbn [try_models]. destruct (probe name) eqn:Hp.
    1:{ left. exists [], name. repeat split. exists names. repeat split; trivial.
        intros n []. }
    all: destruct IH as [[before [name' [[after [-> [Hok Hbefore]]] [Hr Hpr]]]] | [Hall [Hr Hpr]]].
    all: cbn [returned_model probed].
    all: first
      [ left; exists (name :: before), name'; split;
        [ exists after; repeat split; trivial;
          intros n [<- | Hn]; [congruence | now apply Hbefore]
        | split; [exact Hr | now rewrite Hpr] ]
      | right; split;
        [ intros n [<- | Hn]; [congruence | now apply Hall]
        | split; [exact Hr | now rewrite Hpr] ] ].
Qed.

Lemma first_available_unique (probe : string -> probe_result) (names : list string)
    (b1 b2 : list string) (n1 n2 : string) :
  first_available probe names b1 n1 -> first_available probe names b2 n2 ->
  b1 = b2 /\ n1 = n2.
Proof.
  intros [a1 [E1 [O1 F1]]] [a2 [E2 [O2 F2]]]. subst names.
  revert b2 E2 F2. induction b1 as [|x b1 IH]; intros [|y b2] E2 F2; simpl in E2.
  - injection E2 as -> _. now split.
  - injection E2 as -> _. exfalso. apply (F2 y); [now left | exact O1].
  - injection E2 as -> _. exfalso. apply (F1 n2); [now left | exact O2].
  - injection E2 as -> E2.
    destruct (IH (fun n Hn => F1 n (or_intror Hn)) b2 E2 (fun n Hn => F2 n (or_intror Hn)))
      as [-> ->].
    now split.
Qed.

(** The three ways [initialize_gemini] goes. *)
Lemma initialize_gemini_cases (env : environment) :
  (~ key_usable env
   /\ returned_model (initialize_gemini env) = None
   /\ probed (initialize_gemini env) = [])
  \/ (key_usable env /\ initialize_gemini env = try_models (probe env) model_names).
Proof.
  unfold initialize_gemini.
  destruct (GOOGLE_API_KEY env) as [key|] eqn:Hk.
  2:{ left. split; [|split; reflexivity].
      intros [k [H _]]. rewrite Hk in H. discriminate H. }
  destruct key as [|a key]; cbn [Py.truthy negb].
  { left. split; [|split; reflexivity].
    intros [k [H [Hne _]]]. rewrite Hk in H. injection H as <-. now apply Hne. }
  destruct (configure env (String a key)) as [msg|] eqn:Hc.
  - left. split; [|split; reflexivity].
    intros [k [H [_ Hcf]]]. rewrite Hk in H. injection H as <-. congruence.
  - right. split; [|reflexivity]. exists (String a key).
    split; [exact Hk|]. split; [discriminate | exact Hc].
Qed.

End Initialization.

(** X15.  [initialize_gemini] returns the handle of a candidate exactly
    when the key is usable and the candidate is the first of
    [model_names], in their order, to pass the probe; the candidates
    probed are then those before it and itself, and no later one. *)
Theorem initialize_gemini_first_available (env : environment) (name : string) :
  (returned_model (initialize_gemini env) = Some {| model_name := name |}
   <-> key_usable env /\ exists before, first_available (probe env) model_names before name)
  /\ (forall before,
        key_usable env -> first_available (probe env) model_names before name ->
        probed (initialize_gemini env) = (before ++ [name])%list).
Proof.
  destruct (initialize_gemini_cases env) as [[Hno [Hr Hp]] | [Hkey E]].
  - split.
    + split; [rewrite Hr; discriminate | intros [H _]; contradiction].
    + intros before H. contradiction.
  - rewrite E.
    destruct (try_models_cases (probe env) model_names)
      as [[before [name' [Hfirst [Hr Hp]]]] | [Hall [Hr Hp]]].
    + split.
      * rewrite Hr. split.
        -- intros [= <-]. split; [exact Hkey | now exists before].
        -- intros [_ [b Hb]].
           destruct (first_available_unique _ _ _ _ _ _ Hb Hfirst) as [_ ->]. reflexivity.
      * intros b _ Hb.
        destruct (first_available_unique _ _ _ _ _ _ Hb Hfirst) as [-> ->]. exact Hp.
    + assert (Hnone : forall b, ~ first_available (probe env) model_names b name).
      { intros b [after [Hn [Hok _]]]. apply (Hall name); [|exact Hok].
        rewrite Hn. apply in_or_app. right. now left. }
      split.
      * rewrite Hr. split; [discriminate | intros [_ [b Hb]]; now apply Hnone in Hb].
      * intros b _ Hb. now apply Hnone in Hb.
Qed.

Lemma initialize_gemini_first_available_witness :
  let env := {| GOOGLE_API_KEY := Some "key";
                configure := fun _ => None;
                probe := fun n => if String.eqb n "gemini-1.5-flash-latest" then ProbeOk
                                  else if String.eqb n "gemini-1.5-pro" then ProbeOk
                                  else ProbeNotFound |} in
  returned_model (initialize_gemini env) = Some {| model_name := "gemini-1.5-flash-latest" |}
  /\ probed (initialize_gemini env) =
       ["gemini-2.0-flash-exp"; "gemini-1.5-flash-002"; "gemini-1.5-flash-latest"].
Proof.
  cbv zeta.
  set (env := {| GOOGLE_API_KEY := Some "key";
                 configure := fun _ => None;
                 probe := fun n => if String.eqb n "gemini-1.5-flash-latest" then ProbeOk
                                   else if String.eqb n "gemini-1.5-pro" then ProbeOk
                                   else ProbeNotFound |}).
  assert (Hkey : key_usable env).
  { exists "key". repeat split. discriminate. }
  assert (Hfirst : first_available (probe env) model_names
                     ["gemini-2.0-flash-exp"; "gemini-1.5-flash-002"] "gemini-1.5-flash-latest").
  { eexists. split; [reflexivity|]. split; [reflexivity|].
    intros n [<- | [<- | []]]; discriminate. }
  destruct (initialize_gemini_first_available env "gemini-1.5-flash-latest") as [Hiff Hprobed].
  split.
  - apply Hiff. split; [exact Hkey | eexists; exact Hfirst].
  - exact (Hprobed _ Hkey Hfirst).
Defined.

(** X16.  [initialize_gemini] returns no handle exactly when the key is
    missing, empty or refused by [genai.configure], or when no candidate
    passes the probe.  In the first case no candidate is probed; in the
    second all seven are, in the order of [model_names]. *)
Theorem initialize_gemini_none (env : environment) :
  (returned_model (initialize_gemini env) = None
   <-> ~ key_usable env \/ forall n, In n model_names -> probe env n <> ProbeOk)
  /\ (~ key_usable env -> probed (initialize_gemini env) = [])
  /\ (key_usable env -> (forall n, In n model_names -> probe env n <> ProbeOk) ->
      probed (initialize_gemini env) = model_names).
Proof.
  destruct (initialize_gemini_cases env) as [[Hno [Hr Hp]] | [Hkey E]].
  - split; [|split].
    + split; [now left | intros _; exact Hr].
    + intros _. exact Hp.
    + intros H. contradiction.
  - rewrite E.
    destruct (try_models_cases (probe env) model_names)
      as [[before [name [[after [Hn [Hok _]]] [Hr Hp]]]] | [Hall [Hr Hp]]].
    + assert (Hin : In name model_names).
      { rewrite Hn. apply in_or_app. right. now left. }
      split; [|split].
      * rewrite Hr. split; [discriminate|].
        intros [H | H]; [contradiction | now apply H in Hin].
      * intros H. contradiction.
      * intros _ H. now apply H in Hin.
    + split; [|split].
      * split; [now right | intros _; exact Hr].
      * intros H. contradiction.
      * intros _ _. exact Hp.
Qed.

Lemma initialize_gemini_none_witness :
  probed (initialize_gemini {| GOOGLE_API_KEY := Some "";
                               configure := fun _ => None;
                               probe := fun _ => ProbeOk |}) = []
  /\ probed (initialize_gemini {| GOOGLE_API_KEY := Some "key";
                                  configure := fun _ => None;
                                  probe := fun _ => ProbePermissionDenied "denied" |})
     = model_names.
Proof.
  split.
  - apply (proj1 (proj2 (initialize_gemini_none _))).
    intros [k [H [Hne _]]]. injection H as <-. now apply Hne.
  - apply (proj2 (proj2 (initialize_gemini_none _))).
    + exists "key". repeat split. discriminate.
    + intros n _. discriminate.
Defined.

(** ** The history page *)

Section HistoryPage.
Import Py PyFacts.

(** The loop when no [regen] button among the indices met is pressed. *)
Lemma show_history_all (buttons : history_buttons) (xs : list HistoryEntry) (start : nat) :
  (forall k, start <= k < start + length xs -> regenerate buttons k = false) ->
  show_history buttons (combine (seq start (length xs)) xs) =
    (map (fun p => expander_of buttons (fst p) (snd p)) (combine (seq start (length xs)) xs),
     None).
Proof.
  revert start; induction xs as [|x xs IH]; intros start H; [reflexivity|].
  cbn [length seq combine show_history map fst snd].
  rewrite (H start) by (simpl; lia).
  rewrite IH by (intros k Hk; apply H; simpl; lia).
  reflexivity.
Qed.


Lemma nth_error_enumerate_map {A B : Type} (f : nat -> A -> B) (xs : list A) (start k : nat) :
  nth_error (map (fun p => f (fst p) (snd p)) (combine (seq start (length xs)) xs)) k =
  option_map (f (start + k)) (nth_error xs k).
Proof.
  revert start k; induction xs as [|x xs IH]; intros start [|k]; cbn; try reflexivity.
  - now rewrite Nat.add_0_r.
  - rewrite IH. now replace (S start + k) with (start + S k) by lia.
Qed.

Lemma map_item_enumerate (buttons : history_buttons) (xs : list HistoryEntry) (start : nat) :
  map item (map (fun p => expander_of buttons (fst p) (snd p))
                (combine (seq start (length xs)) xs)) = xs.
Proof.
  revert start; induction xs as [|x xs IH]; intros start; [reflexivity|].
  cbn [length seq combine map fst snd expander_of item]. now rewrite IH.
Qed.

Lemma slice_to_prefix (s : string) (n : nat) : starts_with (slice_to s n) s.
Proof. exists (slice_from s n). symmetry. apply slice_to_from. Qed.

Lemma length_slice_to (s : string) (n : nat) :
  String.length (slice_to s n) = Nat.min n (String.length s).
Proof.
  revert s; induction n as [|n IH]; intros [|c s]; simpl; try reflexivity.
  now rewrite IH.
Qed.

Lemma slice_to_all (s : string) (n : nat) : String.length s <= n -> slice_to s n = s.
Proof.
  revert s; induction n as [|n IH]; intros [|c s] H; simpl in *; try reflexivity; try lia.
  rewrite IH; [reflexivity | lia].
Qed.

End HistoryPage.

(** X17.  The history page lists the entries newest first.  With a history
    that is not empty, and neither the clear button nor a [regen] button
    pressed, it draws one expander for each entry, in the reverse of the
    order they were saved in: the expander at index [k] belongs to the
    entry at position [n - 1 - k] of the [n] saved and is titled with the
    number [k + 1].  The history is left as it was. *)
Theorem history_page_newest_first (query_history : list HistoryEntry) (buttons : history_buttons) :
  query_history <> [] ->
  clear_history buttons = false ->
  (forall k, regenerate buttons k = false) ->
  let r := history_page query_history buttons in
  history_after r = query_history
  /\ page_ended r = Completed
  /\ map item (expanders r) = rev query_history
  /\ (forall k, k < length query_history ->
        exists entry,
          nth_error query_history (length query_history - 1 - k) = Some entry
          /\ nth_error (expanders r) k = Some (expander_of buttons k entry)).
Proof.
  intros Hne Hclear Hregen. cbv zeta. unfold history_page.
  destruct query_history as [|e0 h] eqn:Eh; [contradiction|]. rewrite <- Eh. rewrite Hclear.
  unfold enumerate.
  rewrite (show_history_all buttons (rev query_history) 0) by (intros k _; apply Hregen).
  cbn [history_after page_ended expanders].
  split; [reflexivity|]. split; [reflexivity|]. split; [apply map_item_enumerate|].
  intros k Hk. rewrite nth_error_enumerate_map, nth_error_rev.
  replace (k <? length query_history)%nat with true by (symmetry; apply Nat.ltb_lt; exact Hk).
  replace (length query_history - S k) with (length query_history - 1 - k) by lia.
  destruct (nth_error query_history (length query_history - 1 - k)) as [entry|] eqn:En.
  - exists entry. split; reflexivity.
  - apply nth_error_None in En. lia.
Qed.

Lemma history_page_newest_first_witness :
  let older := {| question := "first"; sql_query := "select 1"; timestamp := "2024-05-01 10:30" |} in
  let newer := {| question := "second"; sql_query := "select 2"; timestamp := "2024-05-01 10:31" |} in
  let buttons := {| go_to_converter := false; clear_history := false;
                    copy_query := fun _ => false; regenerate := fun _ => false |} in
  map item (expanders (history_page [older; newer] buttons)) = [newer; older].
Proof.
  cbv zeta.
  refine (proj1 (proj2 (proj2 (history_page_newest_first _ _ _ _ _)))).
  - discriminate.
  - reflexivity.
  - reflexivity.
Defined.

(** X18.  The title of an expander shows the number of the entry and at
    most the first 50 characters of its question, always followed by three
    dots: the part shown is the beginning of the question, of length the
    smaller of 50 and the length of the question, and the whole question
    when that has at most 50 characters. *)
Theorem expander_title_truncates (idx : nat) (entry : HistoryEntry) :
  exists shown,
    expander_title idx entry =
      "Query " ++ Py.str_of_nat (idx + 1) ++ ": " ++ shown ++ "..."
    /\ starts_with shown (question entry)
    /\ String.length shown = Nat.min 50 (String.length (question entry))
    /\ (String.length (question entry) <= 50 -> shown = question entry).
Proof.
  exists (Py.slice_to (question entry) 50). split; [reflexivity|].
  split; [apply slice_to_prefix|]. split; [apply length_slice_to | apply slice_to_all].
Qed.



(** ** From the answer to the history *)

(** X20.  An answer that passes is saved as the bare query.  On a submit
    with the box [Save to history] ticked, a model there and an admissible
    question that is not blank, when the cleaned text of the client's
    answer is accepted by the validator, the handler makes the one call
    and adds to the history the entry of the question, that cleaned text
    and the current time. *)
Theorem query_converter_page_saves_accepted (st : session_state) (m : GenerativeModel)
    (input_text now raw : string) (c : client) :
  model st = Some m ->
  Py.strip input_text <> "" ->
  ~ sensitive input_text -> ~ too_long input_text ->
  c m (build_prompt input_text) = Returned raw ->
  validate_sql (clean_sql_query raw) = (true, "") ->
  run c (query_converter_page st input_text true true now) =
    ({| model := model st;
        query_history :=
          query_history st ++
          [ {| question := input_text; sql_query := clean_sql_query raw; timestamp := now |} ] |},
     [build_prompt input_text]).
Proof.
  intros Hm Ht Hs Hl Hc Hv.
  pose proof (query_converter_page_state st input_text now true true c) as H.
  cbv zeta in H. rewrite H. clear H. rewrite Hm.
  assert (Hr : run c (get_gemini_response input_text (Some m)) =
               (clean_sql_query raw, [build_prompt input_text])).
  { destruct (get_gemini_response_paths input_text m)
      as [[Hs' _] | [[_ [Hl' _]] | [_ [_ [k [E [Hret _]]]]]]]; try contradiction.
    rewrite E. cbn [run]. rewrite Hc, Hret, Hv. reflexivity. }
  rewrite Hr. cbn [fst snd].
  assert (Htruthy : Py.truthy (Py.strip input_text) = true)
    by (destruct (Py.strip input_text); [contradiction | reflexivity]).
  rewrite Htruthy. cbn [andb].
  pose proof (accepted_is_no_failure _ Hv) as Hf. unfold is_failure in Hf.
  apply orb_false_iff in Hf as [Hf _]. rewrite Hf. reflexivity.
Qed.

Lemma query_converter_page_saves_accepted_witness :
  let st := {| model := Some {| model_name := "gemini-1.5-pro" |}; query_history := [] |} in
  let c : client :=
    fun _ _ => Returned ("```sql" ++ Py.nl ++ "SELECT * FROM employees;" ++ Py.nl ++ "```") in
  query_history (fst (run c (query_converter_page st "Show all employees" true true
                               "2024-05-01 10:30"))) =
    [ {| question := "Show all employees";
         sql_query := "SELECT * FROM employees;";
         timestamp := "2024-05-01 10:30" |} ].
Proof.
  cbv zeta.
  rewrite (query_converter_page_saves_accepted
             {| model := Some {| model_name := "gemini-1.5-pro" |}; query_history := [] |}
             {| model_name := "gemini-1.5-pro" |}
             "Show all employees" "2024-05-01 10:30"
             ("```sql" ++ Py.nl ++ "SELECT * FROM employees;" ++ Py.nl ++ "```")
             (fun _ _ => Returned ("```sql" ++ Py.nl ++ "SELECT * FROM employees;" ++ Py.nl ++ "```"))).
  - reflexivity.
  - reflexivity.
  - vm_compute. discriminate.
  - rewrite <- sensitive_iff. vm_compute. intros H. discriminate H.
  - rewrite <- too_long_iff. vm_compute. intros H. discriminate H.
  - reflexivity.
  - reflexivity.
Defined.
